(** * The Python binding layer of the K-means Lloyd kernels

    A shallow embedding of [src/python_api/_kmeans_lloyd.cpp]: the nine
    wrapper functions that validate their array arguments, pick a kernel
    instantiation from the arrays' element types, submit it and return the
    pair (keep-alive event, computation event).

    The kernels themselves live in headers that are not part of the
    translated source ([util_kernels.hpp] and friends); the ones the
    properties below talk about are modelled from the specification and are
    marked as such. *)

From Stdlib Require Import ZArith List String Bool Lia Permutation.
Import ListNotations.

Set Warnings "-register-all".

Local Open Scope string_scope.
Local Open Scope list_scope.
Local Open Scope Z_scope.

(** ** Machine integers *)

(** [size_t] and [py::ssize_t] are 64 bits wide; a [static_cast] between
    integer types wraps around. *)
Definition wrap_unsigned (w : Z) (z : Z) : Z := z mod 2 ^ w.
Definition wrap_signed (w : Z) (z : Z) : Z :=
  (z + 2 ^ (w - 1)) mod 2 ^ w - 2 ^ (w - 1).

Definition to_size_t : Z -> Z := wrap_unsigned 64.
Definition to_ssize_t : Z -> Z := wrap_signed 64.

(** ** Arrays, queues and element types *)

(** The type numbers of the dpctl C API table ([api.UAR_FLOAT_] and so on).
    The table is filled in by dpctl at import time, so the binding layer is
    parameterised by it. *)
Record dpctl_capi := {
  UAR_FLOAT_ : Z;
  UAR_DOUBLE_ : Z;
  UAR_INT32_ : Z;
  UAR_INT64_ : Z
}.

(** A [sycl::queue] is identified by a number. *)
Definition queue := Z.

(** What the wrappers read of a [dpctl::tensor::usm_ndarray]: the address of
    its USM allocation, its shape, its type number, its contiguity flag and
    the queue it was allocated with. *)
Record usm_ndarray := {
  usm_data : Z;
  shape : list Z;
  typenum : Z;
  c_contiguous : bool;
  alloc_queue : queue
}.

Definition get_ndim (a : usm_ndarray) : Z := Z.of_nat (List.length (shape a)).
(** [get_shape] is only called after the rank was checked; out of range it
    reads past the shape vector, which is given the value 0 here. *)
Definition get_shape (a : usm_ndarray) (i : nat) : Z := nth i (shape a) 0.
Definition get_size (a : usm_ndarray) : Z := fold_right Z.mul 1 (shape a).
Definition get_typenum (a : usm_ndarray) : Z := typenum a.
Definition get_queue (a : usm_ndarray) : queue := alloc_queue a.
Definition is_c_contiguous (a : usm_ndarray) : bool := c_contiguous a.

(** The C types the kernels are instantiated with. *)
Inductive ctype := float | double | int32_t | int64_t.

Definition sizeof (T : ctype) : Z :=
  match T with
  | float => 4
  | double => 8
  | int32_t => 4
  | int64_t => 8
  end.

(** [static_cast<T>] of an integer to one of the two index types. *)
Definition static_cast (T : ctype) (z : Z) : Z :=
  match T with
  | int32_t => wrap_signed 32 z
  | int64_t => wrap_signed 64 z
  | _ => z
  end.

(** [a.get_data<T>()]: the allocation of [a] seen as an array of [T],
    whatever the type number of [a] is. *)
Record pointer := { pointee : ctype; address : Z }.
Definition get_data (T : ctype) (a : usm_ndarray) : pointer :=
  {| pointee := T; address := usm_data a |}.

(** ** Kernels and events *)

Inductive kernel :=
| broadcast_division_kernel
| half_l2_norm_kernel
| reduce_centroid_data_kernel
| compute_threshold_kernel
| select_samples_far_from_centroid_kernel
| relocate_empty_clusters
| compute_centroid_shifts_squared_kernel
| compute_distances
| assignment.

Inductive template_arg :=
| targ_type (T : ctype)
| targ_const (n : Z).

Inductive kernel_arg :=
| arg_scalar (z : Z)
| arg_ptr (p : pointer).

Coercion targ_type : ctype >-> template_arg.
Coercion arg_scalar : Z >-> kernel_arg.
Coercion arg_ptr : pointer >-> kernel_arg.

(** A [sycl::event] is either default-constructed (nothing was submitted),
    the event of a kernel submission, or the event of the host task with
    which [dpctl::utils::keep_args_alive] holds references to arrays until
    the events it depends on are complete. *)
Inductive event :=
| default_event
| kernel_event (k : kernel) (targs : list template_arg) (q : queue)
               (args : list kernel_arg) (depends : list event)
| keep_args_alive (q : queue) (arrays : list usm_ndarray)
                  (depends : list event).

(** ** Outcome of a wrapper: [throw py::value_error(msg)] or a return *)

Inductive outcome (A : Type) :=
| value_error (msg : string)
| returned (a : A).
Arguments value_error {A} msg.
Arguments returned {A} a.

Definition bind {A B} (o : outcome A) (k : A -> outcome B) : outcome B :=
  match o with
  | value_error msg => value_error msg
  | returned a => k a
  end.

Notation "x <- o ;; k" := (bind o (fun x => k))
  (at level 61, o at next level, right associativity).
Notation "'throw_if' c 'raising' msg ;; k" :=
  (if c then value_error msg else k)
  (at level 61, c at level 200, msg at next level, right associativity).

Definition is_error {A} (o : outcome A) : bool :=
  match o with value_error _ => true | returned _ => false end.

Notation "x != y" := (negb (Z.eqb x y)) (at level 70, no associativity).

(** <<
    for (size_t i = 0; all_contig && i < num; ++i)
      all_contig = args[i].is_c_contiguous();
    >> *)
Fixpoint all_c_contiguous (args : list usm_ndarray) : bool :=
  match args with
  | [] => true
  | a :: rest => if is_c_contiguous a then all_c_contiguous rest else false
  end.

(** ** The wrappers *)

Section Bindings.

(** The C API table and dpctl's queue-compatibility test are supplied by the
    dpctl runtime. *)
Variable api : dpctl_capi.
Variable queues_are_compatible : queue -> list queue -> bool.

Definition py_broadcast_divide
    (X y : usm_ndarray) (q : queue) (depends : list event)
    : outcome (event * event) :=
  let X_ndim := get_ndim X in
  let y_ndim := get_ndim y in
  throw_if (X_ndim != 2) || (y_ndim != 1) || negb (all_c_contiguous [X; y])
    raising "Arguments must be a matrix and a vector with C-contiguous layout" ;;
  throw_if get_shape y 0 != get_shape X 1
    raising "Array dimensions of arguments are not consistent, X.shape[1] != y.shape[0]" ;;
  throw_if negb (queues_are_compatible q [get_queue X; get_queue y])
    raising "Execution queue is not compatible with allocation queues" ;;
  let y_typenum := get_typenum y in
  throw_if get_typenum X != y_typenum
    raising "Arguments must have the same elemental data types." ;;
  let launch (dataT : ctype) :=
    kernel_event broadcast_division_kernel [targ_type dataT] q
      [arg_scalar (get_shape X 0); arg_scalar (get_shape X 1); arg_scalar 32;
       arg_ptr (get_data dataT X); arg_ptr (get_data dataT y)] depends in
  comp_ev <-
    (if y_typenum =? UAR_FLOAT_ api then returned (launch float)
     else if y_typenum =? UAR_DOUBLE_ api then returned (launch double)
     else value_error "Unsupported elemental data type. Expecting single or double precision floating point numbers") ;;
  let ht_ev := keep_args_alive q [X; y] [comp_ev] in
  returned (ht_ev, comp_ev).

Definition py_half_l2_norm_squared
    (X y : usm_ndarray) (q : queue) (depends : list event)
    : outcome (event * event) :=
  let X_ndim := get_ndim X in
  let y_ndim := get_ndim y in
  throw_if (X_ndim != 2) || (y_ndim != 1) || negb (all_c_contiguous [X; y])
    raising "Arguments must be a matrix and a vector with C-contiguous layout" ;;
  throw_if get_shape y 0 != get_shape X 1
    raising "Array dimensions of arguments are not consistent, X.shape[1] != y.shape[0]" ;;
  throw_if negb (queues_are_compatible q [get_queue X; get_queue y])
    raising "Execution queue is not compatible with allocation queues" ;;
  let y_typenum := get_typenum y in
  throw_if get_typenum X != y_typenum
    raising "Arguments must have the same elemental data types." ;;
  let launch (dataT : ctype) :=
    kernel_event half_l2_norm_kernel [targ_type dataT] q
      [arg_scalar (get_shape X 0); arg_scalar (get_shape X 1); arg_scalar 32;
       arg_ptr (get_data dataT X); arg_ptr (get_data dataT y)] depends in
  comp_ev <-
    (if y_typenum =? UAR_FLOAT_ api then returned (launch float)
     else if y_typenum =? UAR_DOUBLE_ api then returned (launch double)
     else value_error "Unsupported elemental data type. Expecting single or double precision floating point numbers") ;;
  let ht_ev := keep_args_alive q [X; y] [comp_ev] in
  returned (ht_ev, comp_ev).

Definition py_reduce_centroids_data
    (cluster_sizes_private_copies centroids_t_private_copies
     out_cluster_sizes out_centroids_t
     out_empty_clusters_list out_n_empty_clusters : usm_ndarray)
    (q : queue) (depends : list event) : outcome (event * event) :=
  throw_if (get_ndim cluster_sizes_private_copies != 2)
        || (get_ndim centroids_t_private_copies != 3)
        || (get_ndim out_cluster_sizes != 1)
        || (get_ndim out_centroids_t != 2)
        || (get_ndim out_empty_clusters_list != 1)
        || (get_size out_n_empty_clusters != 1)
    raising "Array dimensions of inputs are not consistent" ;;
  let n_copies := get_shape cluster_sizes_private_copies 0 in
  let n_clusters := get_shape cluster_sizes_private_copies 1 in
  let n_features := get_shape centroids_t_private_copies 1 in
  throw_if (n_copies != get_shape centroids_t_private_copies 0)
        || (n_clusters != get_shape centroids_t_private_copies 2)
        || (n_clusters != get_shape out_cluster_sizes 0)
        || (n_clusters != get_shape out_centroids_t 1)
        || (n_features != get_shape out_centroids_t 0)
        || (n_clusters != get_shape out_empty_clusters_list 0)
    raising "Dimensions mismatch" ;;
  let dataT_typenum := get_typenum cluster_sizes_private_copies in
  let indT_typenum := get_typenum out_n_empty_clusters in
  throw_if (dataT_typenum != get_typenum centroids_t_private_copies)
        || (dataT_typenum != get_typenum out_cluster_sizes)
        || (dataT_typenum != get_typenum out_centroids_t)
        || (indT_typenum != get_typenum out_empty_clusters_list)
    raising "Array element data types must be consisten" ;;
  throw_if negb (all_c_contiguous
                   [cluster_sizes_private_copies; centroids_t_private_copies;
                    out_cluster_sizes; out_centroids_t;
                    out_empty_clusters_list; out_n_empty_clusters])
    raising "All array arguments must be C-contiguous" ;;
  throw_if negb (queues_are_compatible q
                   [get_queue cluster_sizes_private_copies;
                    get_queue centroids_t_private_copies;
                    get_queue out_cluster_sizes;
                    get_queue out_centroids_t;
                    get_queue out_empty_clusters_list;
                    get_queue out_n_empty_clusters])
    raising "Execution queue is not compatible with allocation queues" ;;
  let work_group_size := 256 in
  let launch (dataT indT : ctype) :=
    kernel_event reduce_centroid_data_kernel
      [targ_type dataT; targ_type indT] q
      [arg_scalar n_copies; arg_scalar n_features; arg_scalar n_clusters;
       arg_scalar work_group_size;
       arg_ptr (get_data dataT cluster_sizes_private_copies);
       arg_ptr (get_data dataT centroids_t_private_copies);
       arg_ptr (get_data dataT out_cluster_sizes);
       arg_ptr (get_data dataT out_centroids_t);
       arg_ptr (get_data indT out_empty_clusters_list);
       arg_ptr (get_data indT out_n_empty_clusters)] depends in
  comp_ev <-
    (if (dataT_typenum =? UAR_FLOAT_ api) && (indT_typenum =? UAR_INT32_ api)
     then returned (launch float int32_t)
     else if (dataT_typenum =? UAR_FLOAT_ api) && (indT_typenum =? UAR_INT64_ api)
     then returned (launch float int64_t)
     else if (dataT_typenum =? UAR_DOUBLE_ api) && (indT_typenum =? UAR_INT32_ api)
     then returned (launch double int32_t)
     else if (dataT_typenum =? UAR_DOUBLE_ api) && (indT_typenum =? UAR_INT64_ api)
     then returned (launch double int64_t)
     else value_error "Unsupported data types") ;;
  let ht_ev :=
    keep_args_alive q
      [cluster_sizes_private_copies; centroids_t_private_copies;
       out_cluster_sizes; out_centroids_t; out_empty_clusters_list;
       out_n_empty_clusters] [comp_ev] in
  returned (ht_ev, comp_ev).

(** In the branch taken for [UAR_DOUBLE_] the source reads
    [using dataT = float;], exactly as in the branch for [UAR_FLOAT_]. *)
Definition py_compute_threshold
    (data : usm_ndarray) (topk : Z) (threshold : usm_ndarray)
    (q : queue) (depends : list event) : outcome (event * event) :=
  throw_if (get_ndim data != 1) || negb (all_c_contiguous [data; threshold])
    raising "Argument data must be a C-contiguous vector" ;;
  throw_if get_size threshold != 1
    raising "Argument threshold must be 1-element array" ;;
  let data_typenum := get_typenum data in
  throw_if data_typenum != get_typenum threshold
    raising "Data types of arguments must be the same" ;;
  throw_if negb (queues_are_compatible q [get_queue data; get_queue threshold])
    raising "Execution queue is not compatible with allocation queues" ;;
  let n_samples := get_shape data 0 in
  if topk =? 0 then
    let e1 := default_event in
    let e2 := default_event in
    returned (e1, e2)
  else
  let launch (dataT : ctype) :=
    kernel_event compute_threshold_kernel [targ_type dataT] q
      [arg_scalar n_samples; arg_ptr (get_data dataT data); arg_scalar topk;
       arg_ptr (get_data dataT threshold)] depends in
  comp_ev <-
    (if data_typenum =? UAR_FLOAT_ api then returned (launch float)
     else if data_typenum =? UAR_DOUBLE_ api then returned (launch float)
     else value_error "Unsupported elemental data type. Expect single- or double- floating-point types.") ;;
  let ht_ev := keep_args_alive q [data; threshold] [comp_ev] in
  returned (ht_ev, comp_ev).

Definition py_select_samples_far_from_centroid
    (n_selected : Z)
    (distance_to_centroid threshold selected_samples_idx
     n_selected_gt_threshold n_selected_eq_threshold : usm_ndarray)
    (q : queue) (depends : list event) : outcome (event * event) :=
  throw_if n_selected =? 0
    raising "Argument `n_selected` must be positive" ;;
  throw_if (get_ndim distance_to_centroid != 1)
        || (get_ndim selected_samples_idx != 1)
        || (get_size threshold != 1)
        || (get_size n_selected_gt_threshold != 1)
        || (get_size n_selected_eq_threshold != 1)
    raising "Array dimensionalities are not consistent" ;;
  let n_samples := get_shape distance_to_centroid 0 in
  throw_if to_size_t n_samples <? n_selected
    raising "Argument `n_select` is too large" ;;
  throw_if get_shape selected_samples_idx 0 <? to_ssize_t n_selected
    raising "Vector `selected_samples_idx` must have size of at least `n_selected` elements" ;;
  throw_if negb (all_c_contiguous [distance_to_centroid; selected_samples_idx])
    raising "Arrays must be C-contiguous" ;;
  let dataT_typenum := get_typenum distance_to_centroid in
  throw_if dataT_typenum != get_typenum threshold
    raising "Input arrays must have the same elemental data type" ;;
  let indT_typenum := get_typenum selected_samples_idx in
  throw_if (indT_typenum != get_typenum n_selected_gt_threshold)
        || (indT_typenum != get_typenum n_selected_eq_threshold)
    raising "Output array must have the same elemental data type" ;;
  throw_if negb (queues_are_compatible q
                   [get_queue distance_to_centroid; get_queue threshold;
                    get_queue selected_samples_idx;
                    get_queue n_selected_gt_threshold;
                    get_queue n_selected_eq_threshold])
    raising "Execution queue is not compatible with allocation queues" ;;
  let work_group_size := 64 in
  let launch (dataT indT : ctype) :=
    kernel_event select_samples_far_from_centroid_kernel
      [targ_type dataT; targ_type indT] q
      [arg_scalar n_selected; arg_scalar (to_size_t n_samples);
       arg_scalar work_group_size;
       arg_ptr (get_data dataT distance_to_centroid);
       arg_ptr (get_data dataT threshold);
       arg_ptr (get_data indT selected_samples_idx);
       arg_ptr (get_data indT n_selected_gt_threshold);
       arg_ptr (get_data indT n_selected_eq_threshold)] depends in
  comp_ev <-
    (if (dataT_typenum =? UAR_FLOAT_ api) && (indT_typenum =? UAR_INT32_ api)
     then returned (launch float int32_t)
     else if (dataT_typenum =? UAR_DOUBLE_ api) && (indT_typenum =? UAR_INT32_ api)
     then returned (launch double int32_t)
     else if (dataT_typenum =? UAR_FLOAT_ api) && (indT_typenum =? UAR_INT64_ api)
     then returned (launch float int64_t)
     else if (dataT_typenum =? UAR_DOUBLE_ api) && (indT_typenum =? UAR_INT64_ api)
     then returned (launch double int64_t)
     else value_error "Unsupported data types") ;;
  let ht_ev :=
    keep_args_alive q
      [distance_to_centroid; threshold; selected_samples_idx;
       n_selected_gt_threshold; n_selected_eq_threshold] [comp_ev] in
  returned (ht_ev, comp_ev).

(** The list handed to [keep_args_alive] has seven entries in the source:
    [per_sample_inertia] is not among them. *)
Definition py_relocate_empty_clusters
    (n_empty_clusters : Z)
    (X_t sample_weights assignment_id empty_clusters_list
     sq_dist_to_nearest_centroid centroid_t cluster_sizes
     per_sample_inertia : usm_ndarray)
    (q : queue) (depends : list event) : outcome (event * event) :=
  throw_if (2 != get_ndim X_t) || (1 != get_ndim sample_weights)
        || (1 != get_ndim assignment_id)
        || (1 != get_ndim empty_clusters_list)
        || (1 != get_ndim sq_dist_to_nearest_centroid)
        || (2 != get_ndim centroid_t)
        || (1 != get_ndim cluster_sizes)
        || (1 != get_ndim per_sample_inertia)
    raising "Arguments have inconsistent array dimensionality." ;;
  throw_if negb (all_c_contiguous
                   [X_t; sample_weights; assignment_id; empty_clusters_list;
                    sq_dist_to_nearest_centroid; centroid_t; cluster_sizes;
                    per_sample_inertia])
    raising "Inputs must be C-contiguous" ;;
  let n_samples := get_shape X_t 1 in
  let n_features := get_shape X_t 0 in
  let n_clusters := get_shape empty_clusters_list 0 in
  throw_if (n_samples != get_shape sample_weights 0)
        || (n_samples != get_shape assignment_id 0)
        || (n_samples != get_shape sq_dist_to_nearest_centroid 0)
        || (n_clusters != get_shape centroid_t 1)
        || (n_features != get_shape centroid_t 0)
        || (n_clusters != get_shape cluster_sizes 0)
        || (n_samples != get_shape per_sample_inertia 0)
    raising "Input dimensions are inconsistent" ;;
  throw_if n_empty_clusters =? 0
    raising "n_empty_clusters must be non-zero." ;;
  throw_if negb (queues_are_compatible q
                   [get_queue X_t; get_queue sample_weights;
                    get_queue assignment_id; get_queue empty_clusters_list;
                    get_queue sq_dist_to_nearest_centroid;
                    get_queue centroid_t; get_queue cluster_sizes;
                    get_queue per_sample_inertia])
    raising "Execution queue is not compatible with allocation queues." ;;
  let dataT_typenum := get_typenum X_t in
  let indT_typenum := get_typenum assignment_id in
  throw_if (dataT_typenum != get_typenum sample_weights)
        || (indT_typenum != get_typenum empty_clusters_list)
        || (dataT_typenum != get_typenum sq_dist_to_nearest_centroid)
        || (dataT_typenum != get_typenum centroid_t)
        || (dataT_typenum != get_typenum cluster_sizes)
        || (dataT_typenum != get_typenum per_sample_inertia)
    raising "Inconsistent array elemental data types" ;;
  let work_group_size := 64 in
  let launch (dataT indT : ctype) :=
    kernel_event relocate_empty_clusters
      [targ_type dataT; targ_type indT] q
      [arg_scalar n_samples; arg_scalar n_features;
       arg_scalar (static_cast indT n_clusters); arg_scalar work_group_size;
       arg_scalar n_empty_clusters;
       arg_ptr (get_data dataT X_t);
       arg_ptr (get_data dataT sample_weights);
       arg_ptr (get_data indT assignment_id);
       arg_ptr (get_data indT empty_clusters_list);
       arg_ptr (get_data dataT sq_dist_to_nearest_centroid);
       arg_ptr (get_data dataT centroid_t);
       arg_ptr (get_data dataT cluster_sizes);
       arg_ptr (get_data dataT per_sample_inertia)] depends in
  comp_ev <-
    (if (dataT_typenum =? UAR_FLOAT_ api) && (indT_typenum =? UAR_INT32_ api)
     then returned (launch float int32_t)
     else if (dataT_typenum =? UAR_FLOAT_ api) && (indT_typenum =? UAR_INT64_ api)
     then returned (launch float int64_t)
     else if (dataT_typenum =? UAR_DOUBLE_ api) && (indT_typenum =? UAR_INT32_ api)
     then returned (launch double int32_t)
     else if (dataT_typenum =? UAR_DOUBLE_ api) && (indT_typenum =? UAR_INT64_ api)
     then returned (launch double int64_t)
     else value_error "Unsupported data types") ;;
  let ht_ev :=
    keep_args_alive q
      [X_t; sample_weights; assignment_id; empty_clusters_list;
       sq_dist_to_nearest_centroid; centroid_t; cluster_sizes] [comp_ev] in
  returned (ht_ev, comp_ev).

Definition py_compute_centroid_shifts_squared_kernel
    (old_centroid_t new_centroid_t centroid_shifts : usm_ndarray)
    (q : queue) (depends : list event) : outcome (event * event) :=
  throw_if (2 != get_ndim new_centroid_t) || (2 != get_ndim old_centroid_t)
        || (1 != get_ndim centroid_shifts)
    raising "Input dimensionalities are not consistent." ;;
  let n_features := get_shape old_centroid_t 0 in
  let n_clusters := get_shape old_centroid_t 1 in
  throw_if (n_features != get_shape new_centroid_t 0)
        || (n_clusters != get_shape new_centroid_t 1)
        || (n_clusters != get_shape centroid_shifts 0)
    raising "Array dimensions are not consistent." ;;
  throw_if negb (all_c_contiguous
                   [new_centroid_t; old_centroid_t; centroid_shifts])
    raising "Arguments must be C-contiguous arrays" ;;
  throw_if negb (queues_are_compatible q
                   [get_queue new_centroid_t; get_queue old_centroid_t;
                    get_queue centroid_shifts])
    raising "Execution queue is not compatible with allocation queues" ;;
  let typenum := get_typenum old_centroid_t in
  throw_if (typenum != get_typenum new_centroid_t)
        || (typenum != get_typenum centroid_shifts)
    raising "All array arguments must have the same elemental data types" ;;
  let work_group_size := 128 in
  let launch (dataT : ctype) :=
    kernel_event compute_centroid_shifts_squared_kernel [targ_type dataT] q
      [arg_scalar n_features; arg_scalar n_clusters;
       arg_scalar work_group_size;
       arg_ptr (get_data dataT old_centroid_t);
       arg_ptr (get_data dataT new_centroid_t);
       arg_ptr (get_data dataT centroid_shifts)] depends in
  comp_ev <-
    (if typenum =? UAR_FLOAT_ api then returned (launch float)
     else if typenum =? UAR_DOUBLE_ api then returned (launch double)
     else value_error "Unsupported elemental data type.") ;;
  let ht_ev :=
    keep_args_alive q [old_centroid_t; new_centroid_t; centroid_shifts]
      [comp_ev] in
  returned (ht_ev, comp_ev).

(** On a dimension mismatch the source also prints the three comparisons to
    [std::cout] before it throws; standard output is not modelled. *)
Definition py_compute_distances
    (X_t centroid_t euclidean_distances_t : usm_ndarray)
    (work_group_size centroids_window_height : Z)
    (q : queue) (depends : list event) : outcome (event * event) :=
  throw_if (2 != get_ndim X_t) || (2 != get_ndim centroid_t)
        || (2 != get_ndim euclidean_distances_t)
    raising "Input arrays must have dimensionality 2." ;;
  throw_if negb (all_c_contiguous [X_t; centroid_t; euclidean_distances_t])
    raising "Input arrays must be C-contiguous." ;;
  let n_features := get_shape X_t 0 in
  let n_samples := get_shape X_t 1 in
  let n_clusters := get_shape euclidean_distances_t 0 in
  throw_if (n_features != get_shape centroid_t 0)
        || (n_clusters != get_shape centroid_t 1)
        || (n_samples != get_shape euclidean_distances_t 1)
    raising "Input array dimensions are not consistant" ;;
  throw_if negb (queues_are_compatible q
                   [get_queue X_t; get_queue centroid_t;
                    get_queue euclidean_distances_t])
    raising "Execution queue is not compatible with allocation queues" ;;
  let typenum := get_typenum X_t in
  throw_if (typenum != get_typenum centroid_t)
        || (typenum != get_typenum euclidean_distances_t)
    raising "Arrays must have the same elemental data types" ;;
  let preferred_work_group_size_multiplier := 8 in
  let centroids_window_width_multiplier := 4 in
  let launch (dataT : ctype) :=
    kernel_event compute_distances
      [targ_type dataT; targ_const preferred_work_group_size_multiplier;
       targ_const centroids_window_width_multiplier] q
      [arg_scalar n_samples; arg_scalar n_features; arg_scalar n_clusters;
       arg_scalar centroids_window_height; arg_scalar work_group_size;
       arg_ptr (get_data dataT X_t);
       arg_ptr (get_data dataT centroid_t);
       arg_ptr (get_data dataT euclidean_distances_t)] depends in
  comp_ev <-
    (if typenum =? UAR_FLOAT_ api then returned (launch float)
     else if typenum =? UAR_DOUBLE_ api then returned (launch double)
     else value_error "Unsupported elemental data type") ;;
  let ht_ev :=
    keep_args_alive q [X_t; centroid_t; euclidean_distances_t] [comp_ev] in
  returned (ht_ev, comp_ev).

Definition py_assignment
    (X_t centroid_t centroids_half_l2_norm assignment_id : usm_ndarray)
    (centroids_window_height work_group_size : Z)
    (q : queue) (depends : list event) : outcome (event * event) :=
  throw_if (2 != get_ndim X_t) || (2 != get_ndim centroid_t)
        || (1 != get_ndim centroids_half_l2_norm)
        || (1 != get_ndim assignment_id)
    raising "Inputs have unexpected dimensionality." ;;
  throw_if negb (all_c_contiguous
                   [X_t; centroid_t; centroids_half_l2_norm; assignment_id])
    raising "Inputs must be C-contiguous arrays." ;;
  let n_features := get_shape X_t 0 in
  let n_samples := get_shape X_t 1 in
  let n_clusters := get_shape centroids_half_l2_norm 0 in
  throw_if (n_features != get_shape centroid_t 0)
        || (n_clusters != get_shape centroid_t 1)
        || (n_samples != get_shape assignment_id 0)
    raising "Inputs have inconsistent dimensions." ;;
  throw_if negb (queues_are_compatible q
                   [get_queue X_t; get_queue centroid_t;
                    get_queue centroids_half_l2_norm;
                    get_queue assignment_id])
    raising "Execution queue is incompatible with allocation queues." ;;
  let dataT_typenum := get_typenum X_t in
  let indT_typenum := get_typenum assignment_id in
  throw_if (dataT_typenum != get_typenum centroid_t)
        || (dataT_typenum != get_typenum centroids_half_l2_norm)
    raising "Arrays have inconsistent elemental data types" ;;
  let preferred_work_group_size_multiplier := 8 in
  let centroids_window_width_multiplier := 4 in
  let launch (dataT indT : ctype) :=
    kernel_event assignment
      [targ_type dataT; targ_type indT;
       targ_const preferred_work_group_size_multiplier;
       targ_const centroids_window_width_multiplier] q
      [arg_scalar n_samples; arg_scalar n_features; arg_scalar n_clusters;
       arg_scalar centroids_window_height; arg_scalar work_group_size;
       arg_ptr (get_data dataT X_t);
       arg_ptr (get_data dataT centroid_t);
       arg_ptr (get_data dataT centroids_half_l2_norm);
       arg_ptr (get_data indT assignment_id)] depends in
  comp_ev <-
    (if (dataT_typenum =? UAR_FLOAT_ api) && (indT_typenum =? UAR_INT32_ api)
     then returned (launch float int32_t)
     else if (dataT_typenum =? UAR_DOUBLE_ api) && (indT_typenum =? UAR_INT32_ api)
     then returned (launch double int32_t)
     else if (dataT_typenum =? UAR_FLOAT_ api) && (indT_typenum =? UAR_INT64_ api)
     then returned (launch float int64_t)
     else if (dataT_typenum =? UAR_DOUBLE_ api) && (indT_typenum =? UAR_INT64_ api)
     then returned (launch double int64_t)
     else value_error "Unsupported array elemental data type") ;;
  let ht_ev :=
    keep_args_alive q
      [X_t; centroid_t; centroids_half_l2_norm; assignment_id] [comp_ev] in
  returned (ht_ev, comp_ev).

End Bindings.

(** ** The Python module

    [PYBIND11_MODULE(_kmeans_dpcpp, m)] registers the nine wrappers under the
    names below; a [call] is one invocation from Python. *)

Module m.

Inductive call :=
| broadcast_divide (divident divisor : usm_ndarray)
| half_l2_norm_squared
    (centroids centroids_half_l2_norm_squared : usm_ndarray)
| reduce_centroids_data
    (cluster_sizes_private_copies centroids_t_private_copies
     out_cluster_sizes out_centroids_t
     out_empty_clusters_list out_n_empty_clusters : usm_ndarray)
| compute_threshold (data : usm_ndarray) (topk : Z) (threshold : usm_ndarray)
| select_samples_far_from_centroid
    (n_selected : Z)
    (distance_to_centroid threshold selected_samples_idx
     n_selected_gt_threshold n_selected_eq_threshold : usm_ndarray)
| relocate_empty_clusters
    (n_empty_clusters : Z)
    (X_t sample_weights assignment_id empty_clusters_list
     sq_dist_to_nearest_centroid centroid_t cluster_sizes
     per_sample_inertia : usm_ndarray)
| compute_centroid_shifts_squared
    (centroid_t new_centroid_t out_centroid_shifts : usm_ndarray)
| compute_centroid_to_sample_distances
    (X_t centroid_t euclidean_distances_t : usm_ndarray)
    (work_group_size centroids_window_height : Z)
| assignment
    (X_t centroids_t centroids_half_l2_norm assignment_id : usm_ndarray)
    (centroids_window_height work_group_size : Z).

Definition invoke (api : dpctl_capi)
    (queues_are_compatible : queue -> list queue -> bool)
    (c : call) (sycl_queue : queue) (depends : list event)
    : outcome (event * event) :=
  match c with
  | broadcast_divide X y =>
      py_broadcast_divide api queues_are_compatible X y sycl_queue depends
  | half_l2_norm_squared X y =>
      py_half_l2_norm_squared api queues_are_compatible X y sycl_queue depends
  | reduce_centroids_data a1 a2 a3 a4 a5 a6 =>
      py_reduce_centroids_data api queues_are_compatible
        a1 a2 a3 a4 a5 a6 sycl_queue depends
  | compute_threshold data topk threshold =>
      py_compute_threshold api queues_are_compatible
        data topk threshold sycl_queue depends
  | select_samples_far_from_centroid n a1 a2 a3 a4 a5 =>
      py_select_samples_far_from_centroid api queues_are_compatible
        n a1 a2 a3 a4 a5 sycl_queue depends
  | relocate_empty_clusters n a1 a2 a3 a4 a5 a6 a7 a8 =>
      py_relocate_empty_clusters api queues_are_compatible
        n a1 a2 a3 a4 a5 a6 a7 a8 sycl_queue depends
  | compute_centroid_shifts_squared a1 a2 a3 =>
      py_compute_centroid_shifts_squared_kernel api queues_are_compatible
        a1 a2 a3 sycl_queue depends
  | compute_centroid_to_sample_distances a1 a2 a3 wg h =>
      py_compute_distances api queues_are_compatible
        a1 a2 a3 wg h sycl_queue depends
  | assignment a1 a2 a3 a4 h wg =>
      py_assignment api queues_are_compatible
        a1 a2 a3 a4 h wg sycl_queue depends
  end.

(** The arrays of a call that hold floating-point data ([dataT] in the
    comments of the source) and those that hold indices ([indT]). *)
Definition data_arrays (c : call) : list usm_ndarray :=
  match c with
  | broadcast_divide X y => [X; y]
  | half_l2_norm_squared X y => [X; y]
  | reduce_centroids_data a1 a2 a3 a4 _ _ => [a1; a2; a3; a4]
  | compute_threshold data _ threshold => [data; threshold]
  | select_samples_far_from_centroid _ a1 a2 _ _ _ => [a1; a2]
  | relocate_empty_clusters _ a1 a2 _ _ a5 a6 a7 a8 => [a1; a2; a5; a6; a7; a8]
  | compute_centroid_shifts_squared a1 a2 a3 => [a1; a2; a3]
  | compute_centroid_to_sample_distances a1 a2 a3 _ _ => [a1; a2; a3]
  | assignment a1 a2 a3 _ _ _ => [a1; a2; a3]
  end.

Definition index_arrays (c : call) : list usm_ndarray :=
  match c with
  | reduce_centroids_data _ _ _ _ a5 a6 => [a5; a6]
  | select_samples_far_from_centroid _ _ _ a3 a4 a5 => [a3; a4; a5]
  | relocate_empty_clusters _ _ _ a3 a4 _ _ _ _ => [a3; a4]
  | assignment _ _ _ a4 _ _ => [a4]
  | _ => []
  end.

(** Every array argument of a call, in the order of the signature. *)
Definition array_args (c : call) : list usm_ndarray :=
  match c with
  | broadcast_divide X y => [X; y]
  | half_l2_norm_squared X y => [X; y]
  | reduce_centroids_data a1 a2 a3 a4 a5 a6 => [a1; a2; a3; a4; a5; a6]
  | compute_threshold data _ threshold => [data; threshold]
  | select_samples_far_from_centroid _ a1 a2 a3 a4 a5 => [a1; a2; a3; a4; a5]
  | relocate_empty_clusters _ a1 a2 a3 a4 a5 a6 a7 a8 =>
      [a1; a2; a3; a4; a5; a6; a7; a8]
  | compute_centroid_shifts_squared a1 a2 a3 => [a1; a2; a3]
  | compute_centroid_to_sample_distances a1 a2 a3 _ _ => [a1; a2; a3]
  | assignment a1 a2 a3 a4 _ _ => [a1; a2; a3; a4]
  end.

Definition is_compute_threshold_topk0 (c : call) : bool :=
  match c with
  | compute_threshold _ topk _ => topk =? 0
  | _ => false
  end.

End m.

(** Single or double precision floating point; 32- or 64-bit index. *)
Definition supported_data (api : dpctl_capi) (t : Z) : bool :=
  (t =? UAR_FLOAT_ api) || (t =? UAR_DOUBLE_ api).
Definition supported_index (api : dpctl_capi) (t : Z) : bool :=
  (t =? UAR_INT32_ api) || (t =? UAR_INT64_ api).

Definition has_unsupported_type (api : dpctl_capi) (c : m.call) : bool :=
  existsb (fun a => negb (supported_data api (get_typenum a)))
          (m.data_arrays c)
  || existsb (fun a => negb (supported_index api (get_typenum a)))
             (m.index_arrays c).

(** The arrays a returned keep-alive event holds references to. *)
Definition kept_alive (r : outcome (event * event)) : list usm_ndarray :=
  match r with
  | returned (keep_args_alive _ arrays _, _) => arrays
  | _ => []
  end.

(** ** A concrete runtime

    The type numbers of NumPy's enumeration as dpctl fills them in on 64-bit
    Linux, and queues that are compatible when they are the same queue. *)
Definition numpy_api : dpctl_capi :=
  {| UAR_FLOAT_ := 11; UAR_DOUBLE_ := 12; UAR_INT32_ := 5; UAR_INT64_ := 7 |}.

Definition same_queue (q : queue) (qs : list queue) : bool :=
  forallb (Z.eqb q) qs.

(** A C-contiguous array on queue 0. *)
Definition array (addr : Z) (dims : list Z) (t : Z) : usm_ndarray :=
  {| usm_data := addr; shape := dims; typenum := t;
     c_contiguous := true; alloc_queue := 0 |}.

(** ** The threshold kernel *)

Section Threshold.

Context {T : Type}.
Variable ltb : T -> T -> bool.

(** The largest element of [x :: l], by one pass. *)
Fixpoint maximum (x : T) (l : list T) : T :=
  match l with
  | [] => x
  | y :: r => maximum (if ltb x y then y else x) r
  end.

(** [l] without its first element that is not below [m]. *)
Fixpoint drop_one_max (m : T) (l : list T) : list T :=
  match l with
  | [] => []
  | y :: r => if ltb y m then y :: drop_one_max m r else r
  end.

(** Modelled from the spec: [compute_threshold_kernel] of [util_kernels.hpp]
    is not part of the translated source.  The specification says it finds
    the value of the [topk]-th largest element of the data array, a partial
    order statistic and not a full sort: the maximum is taken off [topk - 1]
    times and the maximum of what is left is the result.  The specification
    gives no result when [topk] exceeds the number of elements ([None]). *)
Fixpoint kth_largest (topk : nat) (l : list T) : option T :=
  match topk with
  | O => None
  | S k =>
      match l with
      | [] => None
      | x :: r =>
          let mx := maximum x r in
          match k with
          | O => Some mx
          | S _ => kth_largest k (drop_one_max mx l)
          end
      end
  end.

(** The order statistic: [v] occurs in [l], fewer than [t] elements are
    strictly above it and at least [t] elements are not below it. *)
Definition is_kth_largest (t : nat) (l : list T) (v : T) : Prop :=
  In v l /\
  (List.length (filter (fun x => ltb v x) l) < t)%nat /\
  (t <= List.length (filter (fun x => negb (ltb x v)) l))%nat.

End Threshold.

(** ** Device memory

    The content of a USM allocation is a sequence of bytes (numbers below
    256), found by the address of the allocation.  A kernel instantiated
    with element type [T] reads and stores elements of [sizeof T] bytes,
    least significant byte first. *)

Definition memory := Z -> list Z.

Definition store (mem : memory) (addr : Z) (bytes : list Z) : memory :=
  fun a => if a =? addr then bytes else mem a.

Fixpoint le_decode (bytes : list Z) : Z :=
  match bytes with
  | [] => 0
  | b :: r => b + 256 * le_decode r
  end.

Fixpoint le_encode (n : nat) (x : Z) : list Z :=
  match n with
  | O => []
  | S n' => x mod 256 :: le_encode n' (x / 256)
  end.

(** The first [n] elements of [w] bytes each of a buffer, as bit patterns. *)
Fixpoint load (w n : nat) (bytes : list Z) : list Z :=
  match n with
  | O => []
  | S n' => le_decode (firstn w bytes) :: load w n' (skipn w bytes)
  end.

(** Element 0 of a buffer overwritten with the bit pattern [x]. *)
Definition store_first (w : nat) (x : Z) (bytes : list Z) : list Z :=
  le_encode w x ++ skipn w bytes.

(** The content of a buffer that holds the elements [xs]. *)
Definition bytes_of (w : nat) (xs : list Z) : list Z :=
  flat_map (le_encode w) xs.

(** IEEE-754 numbers as bit patterns.  The magnitude is the pattern
    without its sign bit; infinity has all exponent bits set and a zero
    mantissa, and every larger magnitude is a NaN. *)
Definition float_magnitude (T : ctype) (x : Z) : Z :=
  x mod 2 ^ (8 * sizeof T - 1).

Definition float_infinity (T : ctype) : Z :=
  match T with
  | float => 0x7F800000
  | double => 0x7FF0000000000000
  | int32_t => 2 ^ 31
  | int64_t => 2 ^ 63
  end.

Definition is_nan (T : ctype) (x : Z) : bool :=
  float_infinity T <? float_magnitude T x.

(** Numbers that are not NaN are ordered by sign and magnitude, the two
    zeros being equal. *)
Definition float_key (T : ctype) (x : Z) : Z :=
  let w := 8 * sizeof T in
  if Z.testbit x (w - 1) then - (x mod 2 ^ (w - 1)) else x.

(** The comparison [<] of the C++ code on two bit patterns: false as soon
    as one of them is a NaN. *)
Definition float_ltb (T : ctype) (x y : Z) : bool :=
  negb (is_nan T x) && negb (is_nan T y) && (float_key T x <? float_key T y).

(** What [compute_threshold_kernel<T>(q, n_samples, data, topk, threshold,
    depends)] does to memory: both pointers are [T*]. *)
Definition exec_compute_threshold
    (T : ctype) (n_samples : Z) (data : pointer) (topk : Z)
    (threshold : pointer) (mem : memory) : option memory :=
  let w := Z.to_nat (sizeof T) in
  let xs := load w (Z.to_nat n_samples) (mem (address data)) in
  match kth_largest (float_ltb T) (Z.to_nat topk) xs with
  | Some v =>
      Some (store mem (address threshold)
              (store_first w v (mem (address threshold))))
  | None => None
  end.

(** The effect on memory of an event once it is complete.  A default event
    and a keep-alive host task change nothing; of the kernels only the
    threshold kernel is given a meaning on bytes. *)
Definition exec_event (e : event) (mem : memory) : option memory :=
  match e with
  | default_event => Some mem
  | keep_args_alive _ _ _ => Some mem
  | kernel_event compute_threshold_kernel [targ_type T] _
      [arg_scalar n_samples; arg_ptr data; arg_scalar topk;
       arg_ptr threshold] _ =>
      exec_compute_threshold T n_samples data topk threshold mem
  | kernel_event _ _ _ _ _ => None
  end.

(** Memory after a call: a call that threw submitted nothing. *)
Definition memory_after (r : outcome (event * event)) (mem : memory)
    : option memory :=
  match r with
  | value_error _ => Some mem
  | returned (_, comp_ev) => exec_event comp_ev mem
  end.

(** ** The kernels on typed buffers

    The remaining kernels are described on the elements of C-contiguous
    buffers.  They are generic in the element type, as the templates are:
    [T] stands for [float] or [double] with its own addition, product and
    comparison. *)

(** [buf[i] = x]; a store past the end of the buffer is left out. *)
Fixpoint set_nth {A : Type} (i : nat) (x : A) (buf : list A) : list A :=
  match buf, i with
  | [], _ => []
  | _ :: r, O => x :: r
  | y :: r, S i' => y :: set_nth i' x r
  end.

(** The scalar arguments a kernel was submitted with. *)
Definition scalar_args (e : event) : list Z :=
  match e with
  | kernel_event _ _ _ args _ =>
      flat_map (fun a => match a with
                         | arg_scalar z => [z]
                         | arg_ptr _ => []
                         end) args
  | _ => []
  end.

Section Reduce.

Context {T : Type}.
Variable zero : T.
Variable add : T -> T -> T.
Variable is_zero : T -> bool.

(** <<
    sum_ = 0;
    for (copy_idx = 0; copy_idx < n_copies; ++copy_idx)
      sum_ += buf[copy_idx * stride + offset];
    >> *)
Definition sum_copies (n_copies stride : nat) (buf : list T) (offset : nat)
    : T :=
  fold_left
    (fun sum_ copy_idx => add sum_ (nth (copy_idx * stride + offset) buf zero))
    (seq 0 n_copies) zero.

(** One step of the compaction pass: a cluster whose reduced size is zero
    is written at the position the counter gives, and counted. *)
Definition compact_step (sizes : list T) (st : list Z * nat)
    (cluster_idx : nat) : list Z * nat :=
  if is_zero (nth cluster_idx sizes zero)
  then (set_nth (snd st) (Z.of_nat cluster_idx) (fst st), S (snd st))
  else st.

Record reduced := {
  red_cluster_sizes : list T;
  red_centroids_t : list T;
  red_empty_clusters_list : list Z;
  red_n_empty_clusters : Z
}.

(** Modelled from the spec: [reduce_centroid_data_kernel] of
    [util_kernels.hpp] is not part of the translated source.  The
    specification says it reduces the [n_copies] private copies into the
    per-cluster sizes and the per-cluster coordinate sums, and builds the
    list of empty clusters by a compaction pass over the reduced sizes that
    counts the clusters of zero size into a scalar counter and writes their
    ids into a packed prefix of the output list. *)
Definition reduce_centroid_data
    (n_copies n_features n_clusters : nat)
    (cluster_sizes_private_copies centroids_t_private_copies : list T)
    (empty_clusters_list : list Z) : reduced :=
  let sizes :=
    map (sum_copies n_copies n_clusters cluster_sizes_private_copies)
        (seq 0 n_clusters) in
  let sums :=
    map (sum_copies n_copies (n_features * n_clusters)
           centroids_t_private_copies)
        (seq 0 (n_features * n_clusters)) in
  let st :=
    fold_left (compact_step sizes) (seq 0 n_clusters)
      (empty_clusters_list, O) in
  {| red_cluster_sizes := sizes;
     red_centroids_t := sums;
     red_empty_clusters_list := fst st;
     red_n_empty_clusters := Z.of_nat (snd st) |}.

(** The sum across the copies of the size of cluster [k], and of
    coordinate [f] of cluster [k]: copy after copy, starting from zero. *)
Definition size_across_copies (sizes : list (list T)) (k : nat) : T :=
  fold_left (fun acc copy => add acc (nth k copy zero)) sizes zero.

Definition sum_across_copies (sums : list (list (list T))) (f k : nat) : T :=
  fold_left (fun acc copy => add acc (nth k (nth f copy []) zero)) sums zero.

(** A cluster is empty when its reduced size is zero. *)
Definition empty_cluster (sizes : list (list T)) (k : nat) : bool :=
  is_zero (size_across_copies sizes k).

End Reduce.

Section Select.

Context {T : Type}.
Variable ltb : T -> T -> bool.

Definition above (threshold d : T) : bool := ltb threshold d.
Definition equal_to (threshold d : T) : bool :=
  negb (ltb threshold d) && negb (ltb d threshold).

(** One pass over the samples from index [i] on: the index of a sample
    whose distance satisfies [p] is written at position [pos], which then
    moves on, as long as [pos] is below [limit]. *)
Fixpoint select_pass (p : T -> bool) (limit : nat) (i : nat) (ds : list T)
    (buf : list Z) (pos : nat) : list Z * nat :=
  match ds with
  | [] => (buf, pos)
  | d :: r =>
      if p d && (pos <? limit)%nat
      then select_pass p limit (S i) r (set_nth pos (Z.of_nat i) buf) (S pos)
      else select_pass p limit (S i) r buf pos
  end.

Record selection := {
  sel_samples_idx : list Z;
  sel_n_gt_threshold : Z;
  sel_n_eq_threshold : Z
}.

(** Modelled from the spec: [select_samples_far_from_centroid_kernel] of
    [util_kernels.hpp] is not part of the translated source.  The
    specification says it partitions the sample indices into those whose
    distance is strictly greater than the threshold and those whose
    distance is equal to it, writes the strictly greater ones first, uses
    the equal ones only to fill the remainder up to [n_selected], and
    reports the count of each category; the result is truncated to the
    requested count, so neither pass writes at or beyond position
    [n_selected]. *)
Definition select_samples
    (n_selected n_samples : nat) (distance_to_centroid : list T)
    (threshold : T) (selected_samples_idx : list Z) : selection :=
  let ds := firstn n_samples distance_to_centroid in
  let gt := select_pass (above threshold) n_selected O ds
              selected_samples_idx O in
  let eq := select_pass (equal_to threshold) n_selected O ds
              (fst gt) (snd gt) in
  {| sel_samples_idx := fst eq;
     sel_n_gt_threshold := Z.of_nat (snd gt);
     sel_n_eq_threshold := Z.of_nat (snd eq - snd gt) |}.

(** The number of samples strictly above, and equal to, the threshold. *)
Definition count_above (threshold : T) (ds : list T) : nat :=
  List.length (filter (above threshold) ds).
Definition count_equal (threshold : T) (ds : list T) : nat :=
  List.length (filter (equal_to threshold) ds).

(** What is asked of a selection of [s] samples: the first [s] entries of
    the output are the indices of some samples of a distance above the
    threshold followed by the indices of some samples of a distance equal
    to it, [s] different indices in all; the entries behind them are
    untouched; the first reported count is the number of the former and
    the second reported count is the number of the latter. *)
Definition selects_exactly (s : nat) (ds : list T) (threshold : T)
    (old_idx : list Z) (out : selection) : Prop :=
  let idx := sel_samples_idx out in
  List.length idx = List.length old_idx /\
  skipn s idx = skipn s old_idx /\
  exists greater equal : list nat,
    firstn s idx = map Z.of_nat (greater ++ equal) /\
    List.length (greater ++ equal) = s /\
    NoDup (greater ++ equal) /\
    (forall i, In i greater ->
       exists d, nth_error ds i = Some d /\ above threshold d = true) /\
    (forall i, In i equal ->
       exists d, nth_error ds i = Some d /\ equal_to threshold d = true) /\
    sel_n_gt_threshold out = Z.of_nat (List.length greater) /\
    sel_n_eq_threshold out = Z.of_nat (List.length equal).

End Select.


(** The bit patterns of the double-precision numbers 1.0 and 2.0, and of
    the single-precision number 1.875, which is the upper half of 1.0. *)
Definition double_1_0 : Z := 0x3FF0000000000000.
Definition double_2_0 : Z := 0x4000000000000000.
Definition float_1_875 : Z := 0x3FF00000.

(** Arguments of [reduce_centroids_data] for [C] private copies, [F]
    features and [K] clusters, as the wrapper accepts them: the shapes of
    the comments of the source, C-contiguous arrays on compatible queues,
    one supported element type and one supported index type. *)
Definition reduce_arguments
    (api : dpctl_capi) (queues_are_compatible : queue -> list queue -> bool)
    (q : queue) (a1 a2 a3 a4 a5 a6 : usm_ndarray) (C F K : nat) : Prop :=
  shape a1 = [Z.of_nat C; Z.of_nat K] /\
  shape a2 = [Z.of_nat C; Z.of_nat F; Z.of_nat K] /\
  shape a3 = [Z.of_nat K] /\
  shape a4 = [Z.of_nat F; Z.of_nat K] /\
  shape a5 = [Z.of_nat K] /\
  get_size a6 = 1 /\
  all_c_contiguous [a1; a2; a3; a4; a5; a6] = true /\
  queues_are_compatible q
    [get_queue a1; get_queue a2; get_queue a3; get_queue a4; get_queue a5;
     get_queue a6] = true /\
  supported_data api (get_typenum a1) = true /\
  get_typenum a2 = get_typenum a1 /\
  get_typenum a3 = get_typenum a1 /\
  get_typenum a4 = get_typenum a1 /\
  supported_index api (get_typenum a6) = true /\
  get_typenum a5 = get_typenum a6.

(** The indices, counted from [i], of the elements of [ds] that satisfy
    [p], in increasing order. *)
Fixpoint hits {T : Type} (p : T -> bool) (i : nat) (ds : list T) : list nat :=
  match ds with
  | [] => []
  | d :: r => if p d then i :: hits p (S i) r else hits p (S i) r
  end.

(** Arguments of [select_samples_far_from_centroid] for [N] samples and an
    index vector of [M] entries, as the wrapper accepts them. *)
Definition select_arguments
    (api : dpctl_capi) (queues_are_compatible : queue -> list queue -> bool)
    (q : queue) (a1 a2 a3 a4 a5 : usm_ndarray) (N M : nat) : Prop :=
  shape a1 = [Z.of_nat N] /\
  get_size a2 = 1 /\
  shape a3 = [Z.of_nat M] /\
  get_size a4 = 1 /\
  get_size a5 = 1 /\
  Z.of_nat N < 2 ^ 63 /\
  Z.of_nat M < 2 ^ 63 /\
  all_c_contiguous [a1; a3] = true /\
  queues_are_compatible q
    [get_queue a1; get_queue a2; get_queue a3; get_queue a4; get_queue a5]
    = true /\
  supported_data api (get_typenum a1) = true /\
  get_typenum a2 = get_typenum a1 /\
  supported_index api (get_typenum a3) = true /\
  get_typenum a4 = get_typenum a3 /\
  get_typenum a5 = get_typenum a3.

(** Arguments of [half_l2_norm_squared]: a matrix of [R] rows and [Cn]
    columns and a vector of [L] entries, C-contiguous, on compatible
    queues, of one supported element type. *)
Definition half_l2_norm_arguments
    (api : dpctl_capi) (queues_are_compatible : queue -> list queue -> bool)
    (q : queue) (X y : usm_ndarray) (R Cn L : nat) : Prop :=
  shape X = [Z.of_nat R; Z.of_nat Cn] /\
  shape y = [Z.of_nat L] /\
  all_c_contiguous [X; y] = true /\
  queues_are_compatible q [get_queue X; get_queue y] = true /\
  get_typenum X = get_typenum y /\
  supported_data api (get_typenum y) = true.

(** ** Tactics for walking through a wrapper *)

(** Split the facts gathered from checks that did not throw. *)
Ltac split_checks :=
  repeat match goal with
  | H : (_ || _) = false |- _ => apply orb_false_elim in H; destruct H
  | H : negb _ = false |- _ => apply negb_false_iff in H
  | H : (_ =? _) = true |- _ => apply Z.eqb_eq in H
  end.

(** Take the branch of the next check; a throwing branch closes a goal that
    asks for an error. *)
Ltac next_check :=
  match goal with
  | |- exists msg, (if ?c then value_error _ else _) = value_error msg =>
      destruct c eqn:?; [eexists; reflexivity|]
  end.

Ltac all_checks := repeat next_check; split_checks.

(** After the checks, the dispatch on type numbers: look at each test that
    the goal mentions. *)
Ltac dispatch_cases :=
  repeat match goal with
  | |- context [?x =? ?y] => destruct (x =? y) eqn:?; simpl
  end;
  intros; try discriminate; try (eexists; reflexivity).

Ltac unsupported_rejected Hu :=
  all_checks;
  unfold has_unsupported_type, supported_data, supported_index,
    get_typenum in *;
  simpl in *;
  repeat match goal with a : usm_ndarray |- _ => destruct a end;
  simpl in *; subst; revert Hu; dispatch_cases.

(** The same walk for a hypothesis that says the wrapper returned. *)
Ltac returned_checks H :=
  repeat match type of H with
  | (if ?c then value_error _ else _) = returned _ =>
      destruct c eqn:?; [discriminate H|]
  end;
  split_checks.

Ltac returned_dispatch H :=
  unfold bind in H;
  repeat match type of H with
  | context [if ?c then _ else _] => destruct c eqn:?; try discriminate H
  end;
  try (injection H as <-).

(** ** What each wrapper checks

    The checks of the nine wrappers, read off their [if (...) throw]
    statements and listed per call. *)

(** Arrays whose rank is compared with a constant, with that constant. *)
Definition rank_checked (c : m.call) : list (usm_ndarray * Z) :=
  match c with
  | m.broadcast_divide X y => [(X, 2); (y, 1)]
  | m.half_l2_norm_squared X y => [(X, 2); (y, 1)]
  | m.reduce_centroids_data a1 a2 a3 a4 a5 _ =>
      [(a1, 2); (a2, 3); (a3, 1); (a4, 2); (a5, 1)]
  | m.compute_threshold data _ _ => [(data, 1)]
  | m.select_samples_far_from_centroid _ a1 _ a3 _ _ => [(a1, 1); (a3, 1)]
  | m.relocate_empty_clusters _ a1 a2 a3 a4 a5 a6 a7 a8 =>
      [(a1, 2); (a2, 1); (a3, 1); (a4, 1); (a5, 1); (a6, 2); (a7, 1); (a8, 1)]
  | m.compute_centroid_shifts_squared a1 a2 a3 => [(a2, 2); (a1, 2); (a3, 1)]
  | m.compute_centroid_to_sample_distances a1 a2 a3 _ _ =>
      [(a1, 2); (a2, 2); (a3, 2)]
  | m.assignment a1 a2 a3 a4 _ _ => [(a1, 2); (a2, 2); (a3, 1); (a4, 1)]
  end.

(** Arrays that must have exactly one element, whatever their rank. *)
Definition size_checked (c : m.call) : list usm_ndarray :=
  match c with
  | m.reduce_centroids_data _ _ _ _ _ a6 => [a6]
  | m.compute_threshold _ _ threshold => [threshold]
  | m.select_samples_far_from_centroid _ _ a2 _ a4 a5 => [a2; a4; a5]
  | _ => []
  end.

(** Pairs of dimensions that are compared for equality. *)
Definition dims_checked (c : m.call) : list (Z * Z) :=
  match c with
  | m.broadcast_divide X y => [(get_shape y 0, get_shape X 1)]
  | m.half_l2_norm_squared X y => [(get_shape y 0, get_shape X 1)]
  | m.reduce_centroids_data a1 a2 a3 a4 a5 _ =>
      let n_copies := get_shape a1 0 in
      let n_clusters := get_shape a1 1 in
      let n_features := get_shape a2 1 in
      [(n_copies, get_shape a2 0); (n_clusters, get_shape a2 2);
       (n_clusters, get_shape a3 0); (n_clusters, get_shape a4 1);
       (n_features, get_shape a4 0); (n_clusters, get_shape a5 0)]
  | m.relocate_empty_clusters _ a1 a2 a3 a4 a5 a6 a7 a8 =>
      let n_samples := get_shape a1 1 in
      let n_features := get_shape a1 0 in
      let n_clusters := get_shape a4 0 in
      [(n_samples, get_shape a2 0); (n_samples, get_shape a3 0);
       (n_samples, get_shape a5 0); (n_clusters, get_shape a6 1);
       (n_features, get_shape a6 0); (n_clusters, get_shape a7 0);
       (n_samples, get_shape a8 0)]
  | m.compute_centroid_shifts_squared a1 a2 a3 =>
      let n_features := get_shape a1 0 in
      let n_clusters := get_shape a1 1 in
      [(n_features, get_shape a2 0); (n_clusters, get_shape a2 1);
       (n_clusters, get_shape a3 0)]
  | m.compute_centroid_to_sample_distances a1 a2 a3 _ _ =>
      let n_features := get_shape a1 0 in
      let n_samples := get_shape a1 1 in
      let n_clusters := get_shape a3 0 in
      [(n_features, get_shape a2 0); (n_clusters, get_shape a2 1);
       (n_samples, get_shape a3 1)]
  | m.assignment a1 a2 a3 a4 _ _ =>
      let n_features := get_shape a1 0 in
      let n_samples := get_shape a1 1 in
      let n_clusters := get_shape a3 0 in
      [(n_features, get_shape a2 0); (n_clusters, get_shape a2 1);
       (n_samples, get_shape a4 0)]
  | _ => []
  end.

(** Arrays handed to [all_c_contiguous]. *)
Definition layout_checked (c : m.call) : list usm_ndarray :=
  match c with
  | m.select_samples_far_from_centroid _ a1 _ a3 _ _ => [a1; a3]
  | m.compute_centroid_shifts_squared a1 a2 a3 => [a2; a1; a3]
  | _ => m.array_args c
  end.

(** Arrays whose queues are handed to [queues_are_compatible], in the order
    of the source. *)
Definition queue_checked (c : m.call) : list usm_ndarray :=
  match c with
  | m.compute_centroid_shifts_squared a1 a2 a3 => [a2; a1; a3]
  | _ => m.array_args c
  end.

(** The kernel a call submits. *)
Definition kernel_of (c : m.call) : kernel :=
  match c with
  | m.broadcast_divide _ _ => broadcast_division_kernel
  | m.half_l2_norm_squared _ _ => half_l2_norm_kernel
  | m.reduce_centroids_data _ _ _ _ _ _ => reduce_centroid_data_kernel
  | m.compute_threshold _ _ _ => compute_threshold_kernel
  | m.select_samples_far_from_centroid _ _ _ _ _ _ =>
      select_samples_far_from_centroid_kernel
  | m.relocate_empty_clusters _ _ _ _ _ _ _ _ _ => relocate_empty_clusters
  | m.compute_centroid_shifts_squared _ _ _ =>
      compute_centroid_shifts_squared_kernel
  | m.compute_centroid_to_sample_distances _ _ _ _ _ => compute_distances
  | m.assignment _ _ _ _ _ _ => assignment
  end.

Definition is_compute_threshold (c : m.call) : bool :=
  match c with
  | m.compute_threshold _ _ _ => true
  | _ => false
  end.

(** The pointer arguments a kernel was submitted with. *)
Definition pointer_args (e : event) : list pointer :=
  match e with
  | kernel_event _ _ _ args _ =>
      flat_map (fun a => match a with
                         | arg_scalar _ => []
                         | arg_ptr p => [p]
                         end) args
  | _ => []
  end.

(** The type number of the arrays that hold elements of a C type. *)
Definition typenum_of (api : dpctl_capi) (T : ctype) : Z :=
  match T with
  | float => UAR_FLOAT_ api
  | double => UAR_DOUBLE_ api
  | int32_t => UAR_INT32_ api
  | int64_t => UAR_INT64_ api
  end.

(** An array with another contiguity flag. *)
Definition with_contiguity (b : bool) (a : usm_ndarray) : usm_ndarray :=
  {| usm_data := usm_data a; shape := shape a; typenum := typenum a;
     c_contiguous := b; alloc_queue := alloc_queue a |}.

(** A call that throws, whatever the message. *)
Definition rejected {A : Type} (o : outcome A) : Prop :=
  exists msg, o = value_error msg.

(** Close a goal that asks for an error: each check either throws or
    leaves a fact behind; [finish] then finds the facts contradictory. *)
Ltac reject_by finish :=
  unfold rejected; all_checks; exfalso; finish.

(** Split the facts gathered from a dispatch that returned. *)
Ltac dispatch_facts :=
  repeat match goal with
  | H : (_ && _) = true |- _ => apply andb_prop in H; destruct H
  | H : (_ =? _) = true |- _ => apply Z.eqb_eq in H
  end.

(** From a hypothesis that says a wrapper returned [r]: the facts its
    checks leave behind, and [r] itself. *)
Ltac invert_returned H :=
  returned_checks H; returned_dispatch H; dispatch_facts.

(** Write the shape of every array whose rank is known as the list of
    its dimensions. *)
Ltac shapes_by_rank rank1 rank2 rank3 :=
  repeat match goal with
  | H : get_ndim ?a = 1 |- context [shape ?a] => rewrite (rank1 a H)
  | H : 1 = get_ndim ?a |- context [shape ?a] => rewrite (rank1 a (eq_sym H))
  | H : get_ndim ?a = 2 |- context [shape ?a] => rewrite (rank2 a H)
  | H : 2 = get_ndim ?a |- context [shape ?a] => rewrite (rank2 a (eq_sym H))
  | H : get_ndim ?a = 3 |- context [shape ?a] => rewrite (rank3 a H)
  end.

(** The conditions on the scalar arguments of a call. *)
Definition scalars_checked (c : m.call) : Prop :=
  match c with
  | m.select_samples_far_from_centroid n_selected a1 _ a3 _ _ =>
      n_selected <> 0 /\
      n_selected <= to_size_t (get_shape a1 0) /\
      to_ssize_t n_selected <= get_shape a3 0
  | m.relocate_empty_clusters n_empty_clusters _ _ _ _ _ _ _ _ =>
      n_empty_clusters <> 0
  | _ => True
  end.

(** A call on which no check of its wrapper fails. *)
Definition well_formed
    (api : dpctl_capi) (queues_are_compatible : queue -> list queue -> bool)
    (q : queue) (c : m.call) : Prop :=
  Forall (fun ar => get_ndim (fst ar) = snd ar) (rank_checked c) /\
  Forall (fun a => get_size a = 1) (size_checked c) /\
  Forall (fun xy => fst xy = snd xy) (dims_checked c) /\
  Forall (fun a => is_c_contiguous a = true) (layout_checked c) /\
  queues_are_compatible q (map get_queue (queue_checked c)) = true /\
  Forall (fun a => Forall (fun b => get_typenum a = get_typenum b)
                          (m.data_arrays c)) (m.data_arrays c) /\
  Forall (fun a => Forall (fun b => get_typenum a = get_typenum b)
                          (m.index_arrays c)) (m.index_arrays c) /\
  (m.is_compute_threshold_topk0 c = false ->
   has_unsupported_type api c = false) /\
  scalars_checked c.

(** Turn the tests of a goal into [true] where the context has the
    equation, in either direction. *)
Ltac tests_true :=
  repeat match goal with
  | H : ?x = ?y |- context [?x =? ?y] =>
      replace (x =? y) with true by (symmetry; apply Z.eqb_eq; exact H)
  | H : ?y = ?x |- context [?x =? ?y] =>
      replace (x =? y) with true
        by (symmetry; apply Z.eqb_eq; symmetry; exact H)
  end.

(** Take a [Forall] over an explicit list apart. *)
Ltac forall_facts :=
  repeat match goal with
  | H : Forall _ (_ :: _) |- _ =>
      let H1 := fresh in let H2 := fresh in
      apply Forall_cons_iff in H; destruct H as [H1 H2]
  | H : Forall _ [] |- _ => clear H
  end.

(** Turn the tests of a goal into [false] where the context refutes them. *)
Ltac tests_false :=
  repeat match goal with
  | H : ?x <> 0 |- context [?x =? 0] =>
      replace (x =? 0) with false by (symmetry; apply Z.eqb_neq; exact H)
  | H : ?y <= ?x |- context [?x <? ?y] =>
      replace (x <? y) with false by (symmetry; apply Z.ltb_ge; exact H)
  end.

(** Use the contiguity of each array. *)
Ltac contiguous_true :=
  cbn [all_c_contiguous];
  repeat match goal with
  | H : is_c_contiguous ?a = true |- context [is_c_contiguous ?a] =>
      rewrite H
  end.

(** Bring the facts that say a type number is supported into the goal. *)
Ltac revert_supported :=
  repeat match goal with
  | H : (_ || _) = false |- _ => apply orb_false_elim in H; destruct H
  | H : negb _ = false |- _ => apply negb_false_iff in H
  | H : supported_data _ _ = true |- _ => unfold supported_data in H
  | H : supported_index _ _ = true |- _ => unfold supported_index in H
  | H : (_ || _) = true |- _ => revert H
  end.

(** ** Sample calls *)

(** An [assignment] call on four samples, two features and three
    clusters, with double-precision data and 64-bit indices. *)
Definition sample_assignment : m.call :=
  m.assignment (array 1 [2; 4] 12) (array 2 [2; 3] 12) (array 3 [3] 12)
    (array 4 [4] 7) 8 64.

(** A [relocate_empty_clusters] call on four samples, two features and
    two clusters, with single-precision data and 32-bit indices. *)
Definition sample_relocate : m.call :=
  m.relocate_empty_clusters 1
    (array 1 [2; 4] 11) (array 2 [4] 11) (array 3 [4] 5) (array 4 [2] 5)
    (array 5 [4] 11) (array 6 [2; 2] 11) (array 7 [2] 11) (array 8 [4] 11).

(** ** Typed device memory

    For the kernels that compute with the elements, the content of a USM
    allocation is the list of its elements together with the type number
    of the array that owns it.  A kernel reads an allocation through a
    pointer; the read has a meaning only when the pointee type of the
    pointer is the C type of that type number. *)

Definition ctype_eqb (A B : ctype) : bool :=
  match A, B with
  | float, float | double, double
  | int32_t, int32_t | int64_t, int64_t => true
  | _, _ => false
  end.

Section TypedMemory.

Context {T : Type}.

Inductive contents :=
| data_of (xs : list T)
| indices_of (zs : list Z).

Record buffer := { buf_typenum : Z; buf_contents : contents }.

Definition typed_memory := Z -> option buffer.

Variable api : dpctl_capi.

Definition read_data (mem : typed_memory) (p : pointer) : option (list T) :=
  match mem (address p) with
  | Some b =>
      if buf_typenum b =? typenum_of api (pointee p)
      then match buf_contents b with
           | data_of xs => Some xs
           | indices_of _ => None
           end
      else None
  | None => None
  end.

Definition read_indices (mem : typed_memory) (p : pointer)
    : option (list Z) :=
  match mem (address p) with
  | Some b =>
      if buf_typenum b =? typenum_of api (pointee p)
      then match buf_contents b with
           | indices_of zs => Some zs
           | data_of _ => None
           end
      else None
  | None => None
  end.

(** The elements of an allocation replaced. *)
Definition overwrite (mem : typed_memory) (p : pointer) (c : contents)
    : typed_memory :=
  fun a =>
    if a =? address p
    then match mem a with
         | Some b => Some {| buf_typenum := buf_typenum b;
                             buf_contents := c |}
         | None => None
         end
    else mem a.

(** The first elements of a buffer replaced by [new]. *)
Definition store_prefix {A : Type} (new old : list A) : list A :=
  new ++ skipn (List.length new) old.

(** The array [a] holds the elements [xs], or the indices [zs]. *)
Definition holds_data (mem : typed_memory) (a : usm_ndarray) (xs : list T)
    : Prop :=
  mem (usm_data a) =
  Some {| buf_typenum := get_typenum a; buf_contents := data_of xs |}.

Definition holds_indices (mem : typed_memory) (a : usm_ndarray)
    (zs : list Z) : Prop :=
  mem (usm_data a) =
  Some {| buf_typenum := get_typenum a; buf_contents := indices_of zs |}.

Variable zero : T.
Variable add : T -> T -> T.
Variable is_zero : T -> bool.
Variable ltb : T -> T -> bool.

(** [reduce_centroid_data_kernel<dataT, indT>(q, n_copies, n_features,
    n_clusters, work_group_size, p1, ..., p6, depends)]: the two inputs
    are read through [p1] and [p2], the results are stored through [p3]
    to [p6]. *)
Definition exec_reduce_centroid_data
    (targs : list template_arg) (args : list kernel_arg)
    (mem : typed_memory) : option typed_memory :=
  match targs, args with
  | [targ_type dataT; targ_type indT],
    [arg_scalar n_copies; arg_scalar n_features; arg_scalar n_clusters;
     arg_scalar _; arg_ptr p1; arg_ptr p2; arg_ptr p3; arg_ptr p4;
     arg_ptr p5; arg_ptr p6] =>
      if forallb (fun p => ctype_eqb (pointee p) dataT) [p1; p2; p3; p4]
         && forallb (fun p => ctype_eqb (pointee p) indT) [p5; p6]
      then
        match read_data mem p1, read_data mem p2, read_data mem p3,
              read_data mem p4, read_indices mem p5, read_indices mem p6
        with
        | Some sizes_copies, Some sums_copies, Some old_sizes,
          Some old_sums, Some old_list, Some old_count =>
            let out :=
              reduce_centroid_data zero add is_zero
                (Z.to_nat n_copies) (Z.to_nat n_features)
                (Z.to_nat n_clusters) sizes_copies sums_copies old_list in
            let mem3 :=
              overwrite mem p3
                (data_of (store_prefix (red_cluster_sizes out) old_sizes)) in
            let mem4 :=
              overwrite mem3 p4
                (data_of (store_prefix (red_centroids_t out) old_sums)) in
            let mem5 :=
              overwrite mem4 p5
                (indices_of (red_empty_clusters_list out)) in
            Some (overwrite mem5 p6
                    (indices_of
                       (store_prefix [red_n_empty_clusters out] old_count)))
        | _, _, _, _, _, _ => None
        end
      else None
  | _, _ => None
  end.

(** [select_samples_far_from_centroid_kernel<dataT, indT>(q, n_selected,
    n_samples, work_group_size, p1, ..., p5, depends)]: the distances are
    read through [p1] and the threshold through [p2], the indices are
    stored through [p3] and the two counts through [p4] and [p5]. *)
Definition exec_select_samples_far_from_centroid
    (targs : list template_arg) (args : list kernel_arg)
    (mem : typed_memory) : option typed_memory :=
  match targs, args with
  | [targ_type dataT; targ_type indT],
    [arg_scalar n_selected; arg_scalar n_samples; arg_scalar _;
     arg_ptr p1; arg_ptr p2; arg_ptr p3; arg_ptr p4; arg_ptr p5] =>
      if forallb (fun p => ctype_eqb (pointee p) dataT) [p1; p2]
         && forallb (fun p => ctype_eqb (pointee p) indT) [p3; p4; p5]
      then
        match read_data mem p1, read_data mem p2, read_indices mem p3,
              read_indices mem p4, read_indices mem p5
        with
        | Some distances, Some (threshold :: _), Some old_idx,
          Some old_gt, Some old_eq =>
            let out :=
              select_samples ltb (Z.to_nat n_selected) (Z.to_nat n_samples)
                distances threshold old_idx in
            let mem3 :=
              overwrite mem p3 (indices_of (sel_samples_idx out)) in
            let mem4 :=
              overwrite mem3 p4
                (indices_of (store_prefix [sel_n_gt_threshold out] old_gt)) in
            Some (overwrite mem4 p5
                    (indices_of
                       (store_prefix [sel_n_eq_threshold out] old_eq)))
        | _, _, _, _, _ => None
        end
      else None
  | _, _ => None
  end.

(** The effect on typed memory of an event once it is complete: that of
    the kernel it was submitted with, for the two kernels above. *)
Definition run_event (e : event) (mem : typed_memory)
    : option typed_memory :=
  match e with
  | default_event => Some mem
  | keep_args_alive _ _ _ => Some mem
  | kernel_event reduce_centroid_data_kernel targs _ args _ =>
      exec_reduce_centroid_data targs args mem
  | kernel_event select_samples_far_from_centroid_kernel targs _ args _ =>
      exec_select_samples_far_from_centroid targs args mem
  | kernel_event _ _ _ _ _ => None
  end.

(** Typed memory after a call: a call that threw submitted nothing. *)
Definition buffers_after (r : outcome (event * event)) (mem : typed_memory)
    : option typed_memory :=
  match r with
  | value_error _ => Some mem
  | returned (_, comp_ev) => run_event comp_ev mem
  end.

(** A memory given by the list of its allocations. *)
Fixpoint memory_of (allocations : list (usm_ndarray * contents))
    : typed_memory :=
  match allocations with
  | [] => fun _ => None
  | (a, c) :: rest =>
      fun addr =>
        if addr =? usm_data a
        then Some {| buf_typenum := get_typenum a; buf_contents := c |}
        else memory_of rest addr
  end.

End TypedMemory.

(** ** Properties *)

(** *** The element-type dispatch *)

(** C6, as amended: whenever one of the arrays of a call has an element type
    other than single or double precision floating point, or an index type
    other than a 32- or 64-bit integer, the wrapper throws [value_error]
    and so submits nothing, for each of the nine operations; for
    [compute_threshold] this holds for every [topk] other than zero. *)
Theorem unsupported_type_rejected
    (api : dpctl_capi) (queues_are_compatible : queue -> list queue -> bool)
    (c : m.call) (q : queue) (deps : list event) :
  has_unsupported_type api c = true ->
  m.is_compute_threshold_topk0 c = false ->
  exists msg, m.invoke api queues_are_compatible c q deps = value_error msg.
Proof.
  intros Hu Hk. destruct c; simpl m.invoke; simpl in Hk.
  - unfold py_broadcast_divide. unsupported_rejected Hu.
  - unfold py_half_l2_norm_squared. unsupported_rejected Hu.
  - unfold py_reduce_centroids_data. unsupported_rejected Hu.
  - unfold py_compute_threshold. rewrite Hk. unsupported_rejected Hu.
  - unfold py_select_samples_far_from_centroid. unsupported_rejected Hu.
  - unfold py_relocate_empty_clusters. unsupported_rejected Hu.
  - unfold py_compute_centroid_shifts_squared_kernel. unsupported_rejected Hu.
  - unfold py_compute_distances. unsupported_rejected Hu.
  - unfold py_assignment. unsupported_rejected Hu.
Qed.

(** An [assignment] call whose sample matrix holds 32-bit integers. *)
Lemma unsupported_type_rejected_witness :
  let c := m.assignment (array 1 [2; 4] 5) (array 2 [2; 3] 5)
             (array 3 [3] 5) (array 4 [4] 7) 8 64 in
  has_unsupported_type numpy_api c = true /\
  m.is_compute_threshold_topk0 c = false /\
  exists msg, m.invoke numpy_api same_queue c 0 [] = value_error msg.
Proof.
  split; [reflexivity|]. split; [reflexivity|].
  apply (unsupported_type_rejected numpy_api same_queue); reflexivity.
Defined.

(** C6, as stated, fails: [compute_threshold] on two arrays of 32-bit
    integers with [topk = 0] is not rejected; it returns the two default
    events before the element type is looked at. *)
Lemma compute_threshold_topk0_unsupported_type_not_rejected :
  let c := m.compute_threshold (array 1 [4] 5) 0 (array 2 [1] 5) in
  has_unsupported_type numpy_api c = true /\
  m.invoke numpy_api same_queue c 0 [] =
    returned (default_event, default_event).
Proof.
  split; reflexivity.
Qed.

(** *** [compute_threshold] *)

(** What [py_compute_threshold] returns once its checks pass and [topk] is
    not zero. *)
Lemma py_compute_threshold_submits
    (api : dpctl_capi) (queues_are_compatible : queue -> list queue -> bool)
    (data : usm_ndarray) (topk : Z) (threshold : usm_ndarray)
    (q : queue) (deps : list event) :
  get_ndim data = 1 ->
  all_c_contiguous [data; threshold] = true ->
  get_size threshold = 1 ->
  get_typenum data = get_typenum threshold ->
  supported_data api (get_typenum data) = true ->
  queues_are_compatible q [get_queue data; get_queue threshold] = true ->
  topk <> 0 ->
  py_compute_threshold api queues_are_compatible data topk threshold q deps =
    let comp_ev :=
      kernel_event compute_threshold_kernel [targ_type float] q
        [arg_scalar (get_shape data 0); arg_ptr (get_data float data);
         arg_scalar topk; arg_ptr (get_data float threshold)] deps in
    returned (keep_args_alive q [data; threshold] [comp_ev], comp_ev).
Proof.
  intros Hnd Hc Hsz Hty Hsup Hq Hk. unfold py_compute_threshold.
  rewrite Hnd, Hc, Hsz, <- Hty, Hq, !Z.eqb_refl. simpl.
  replace (topk =? 0) with false by (symmetry; apply Z.eqb_neq; lia).
  unfold supported_data in Hsup.
  destruct (get_typenum data =? UAR_FLOAT_ api); simpl in Hsup |- *;
    [reflexivity|]. rewrite Hsup. reflexivity.
Qed.

(** C10: [py_compute_threshold] never compares [topk] with the length of
    the data: once the rank, contiguity, size, element type and queue checks
    pass, every [topk >= 1], however large, gets the kernel submitted and the
    two events returned. *)
Theorem py_compute_threshold_topk_not_checked_against_length
    (api : dpctl_capi) (queues_are_compatible : queue -> list queue -> bool)
    (data : usm_ndarray) (topk : Z) (threshold : usm_ndarray)
    (q : queue) (deps : list event) :
  get_ndim data = 1 ->
  all_c_contiguous [data; threshold] = true ->
  get_size threshold = 1 ->
  get_typenum data = get_typenum threshold ->
  supported_data api (get_typenum data) = true ->
  queues_are_compatible q [get_queue data; get_queue threshold] = true ->
  1 <= topk ->
  let comp_ev :=
    kernel_event compute_threshold_kernel [targ_type float] q
      [arg_scalar (get_shape data 0); arg_ptr (get_data float data);
       arg_scalar topk; arg_ptr (get_data float threshold)] deps in
  py_compute_threshold api queues_are_compatible data topk threshold q deps =
    returned (keep_args_alive q [data; threshold] [comp_ev], comp_ev).
Proof.
  intros Hnd Hc Hsz Hty Hsup Hq Hk. cbv zeta.
  apply py_compute_threshold_submits;
    try assumption; lia.
Qed.

(** [topk = 5] on a vector of two single-precision numbers. *)
Lemma py_compute_threshold_topk_not_checked_against_length_witness :
  let data := array 1 [2] 11 in
  let threshold := array 2 [1] 11 in
  let comp_ev :=
    kernel_event compute_threshold_kernel [targ_type float] 0
      [arg_scalar 2; arg_ptr (get_data float data);
       arg_scalar 5; arg_ptr (get_data float threshold)] [] in
  get_shape data 0 < 5 /\
  py_compute_threshold numpy_api same_queue data 5 threshold 0 [] =
    returned (keep_args_alive 0 [data; threshold] [comp_ev], comp_ev).
Proof.
  split; [reflexivity|].
  apply (py_compute_threshold_topk_not_checked_against_length
           numpy_api same_queue (array 1 [2] 11) 5 (array 2 [1] 11) 0 []);
    try reflexivity; lia.
Defined.

(** C5: on arguments that pass the checks, [py_compute_threshold] with
    [topk = 0] does not throw: it returns two default events, so no kernel
    is submitted, and memory, the threshold buffer included, is what it was
    before the call. *)
Theorem py_compute_threshold_topk0_noop
    (api : dpctl_capi) (queues_are_compatible : queue -> list queue -> bool)
    (data threshold : usm_ndarray) (q : queue) (deps : list event)
    (mem : memory) :
  get_ndim data = 1 ->
  all_c_contiguous [data; threshold] = true ->
  get_size threshold = 1 ->
  get_typenum data = get_typenum threshold ->
  queues_are_compatible q [get_queue data; get_queue threshold] = true ->
  let r := py_compute_threshold api queues_are_compatible
             data 0 threshold q deps in
  r = returned (default_event, default_event) /\
  memory_after r mem = Some mem.
Proof.
  intros Hnd Hc Hsz Hty Hq. unfold py_compute_threshold.
  rewrite Hnd, Hc, Hsz, <- Hty, Hq, !Z.eqb_refl. simpl.
  split; reflexivity.
Qed.

Lemma py_compute_threshold_topk0_noop_witness :
  let data := array 1 [2] 11 in
  let threshold := array 2 [1] 11 in
  let mem := store (fun _ => []) 2 [1; 2; 3; 4] in
  let r := py_compute_threshold numpy_api same_queue data 0 threshold 0 [] in
  r = returned (default_event, default_event) /\
  memory_after r mem = Some mem.
Proof.
  apply (py_compute_threshold_topk0_noop numpy_api same_queue
           (array 1 [2] 11) (array 2 [1] 11) 0 []); reflexivity.
Defined.

(** C2 (defect in the code): on two double-precision arrays the kernel that
    [py_compute_threshold] submits is instantiated with [float], and both
    arrays are handed to it as [float*]. *)
Theorem py_compute_threshold_double_submits_float_kernel :
  let data := array 1 [2] (UAR_DOUBLE_ numpy_api) in
  let threshold := array 2 [1] (UAR_DOUBLE_ numpy_api) in
  exists ht_ev,
    py_compute_threshold numpy_api same_queue data 1 threshold 0 [] =
      returned
        (ht_ev,
         kernel_event compute_threshold_kernel [targ_type float] 0
           [arg_scalar 2; arg_ptr {| pointee := float; address := 1 |};
            arg_scalar 1; arg_ptr {| pointee := float; address := 2 |}] []).
Proof.
  eexists. reflexivity.
Qed.

(** *** Scalar arguments *)

(** C7: [py_select_samples_far_from_centroid] throws when [n_selected] is
    zero and when it exceeds the number of samples, and
    [py_relocate_empty_clusters] throws when [n_empty_clusters] is zero; a
    wrapper that throws has submitted nothing. *)
Theorem invalid_scalar_rejected
    (api : dpctl_capi) (queues_are_compatible : queue -> list queue -> bool)
    (n_selected : Z) (a1 a2 a3 a4 a5 : usm_ndarray)
    (b1 b2 b3 b4 b5 b6 b7 b8 : usm_ndarray)
    (q : queue) (deps : list event) :
  py_select_samples_far_from_centroid api queues_are_compatible
    0 a1 a2 a3 a4 a5 q deps =
  value_error "Argument `n_selected` must be positive" /\
  (0 <= get_shape a1 0 < 2 ^ 63 -> get_shape a1 0 < n_selected ->
   exists msg,
     py_select_samples_far_from_centroid api queues_are_compatible
       n_selected a1 a2 a3 a4 a5 q deps = value_error msg) /\
  (exists msg,
     py_relocate_empty_clusters api queues_are_compatible
       0 b1 b2 b3 b4 b5 b6 b7 b8 q deps = value_error msg).
Proof.
  split; [|split].
  - reflexivity.
  - intros Hr Hlt. unfold py_select_samples_far_from_centroid.
    do 2 next_check.
    replace (to_size_t (get_shape a1 0) <? n_selected) with true.
    + eexists; reflexivity.
    + symmetry. apply Z.ltb_lt. unfold to_size_t, wrap_unsigned.
      rewrite Z.mod_small; lia.
  - unfold py_relocate_empty_clusters. do 3 next_check.
    simpl. eexists; reflexivity.
Qed.

(** Five samples of which six are asked for. *)
Lemma invalid_scalar_rejected_witness :
  let a1 := array 1 [5] 11 in
  let a2 := array 2 [1] 11 in
  let a3 := array 3 [5] 5 in
  let a4 := array 4 [1] 5 in
  let a5 := array 5 [1] 5 in
  (0 <= get_shape a1 0 < 2 ^ 63 /\ get_shape a1 0 < 6) /\
  exists msg,
    py_select_samples_far_from_centroid numpy_api same_queue
      6 a1 a2 a3 a4 a5 0 [] = value_error msg.
Proof.
  split; [cbn; lia|].
  apply (invalid_scalar_rejected numpy_api same_queue 6
           (array 1 [5] 11) (array 2 [1] 11) (array 3 [5] 5)
           (array 4 [1] 5) (array 5 [1] 5)
           (array 1 [5] 11) (array 1 [5] 11) (array 1 [5] 11)
           (array 1 [5] 11) (array 1 [5] 11) (array 1 [5] 11)
           (array 1 [5] 11) (array 1 [5] 11) 0 []); cbn; lia.
Defined.

(** *** Keep-alive events *)

(** Whenever a wrapper returns after submitting a kernel, its first event
    is [keep_args_alive] on a list of arrays. For eight of the nine
    operations the list is every array argument. *)
Lemma kept_alive_all_arguments
    (api : dpctl_capi) (queues_are_compatible : queue -> list queue -> bool)
    (c : m.call) (q : queue) (deps : list event) (r : event * event) :
  m.invoke api queues_are_compatible c q deps = returned r ->
  m.is_compute_threshold_topk0 c = false ->
  (forall n a1 a2 a3 a4 a5 a6 a7 a8,
     c <> m.relocate_empty_clusters n a1 a2 a3 a4 a5 a6 a7 a8) ->
  kept_alive (returned r) = m.array_args c.
Proof.
  intros H Hk Hrel. destruct c; simpl in H, Hk.
  - unfold py_broadcast_divide in H. returned_checks H.
    returned_dispatch H; reflexivity.
  - unfold py_half_l2_norm_squared in H. returned_checks H.
    returned_dispatch H; reflexivity.
  - unfold py_reduce_centroids_data in H. returned_checks H.
    returned_dispatch H; reflexivity.
  - unfold py_compute_threshold in H. returned_checks H. rewrite Hk in H.
    returned_dispatch H; reflexivity.
  - unfold py_select_samples_far_from_centroid in H. returned_checks H.
    returned_dispatch H; reflexivity.
  - exfalso. eapply Hrel. reflexivity.
  - unfold py_compute_centroid_shifts_squared_kernel in H. returned_checks H.
    returned_dispatch H; reflexivity.
  - unfold py_compute_distances in H. returned_checks H.
    returned_dispatch H; reflexivity.
  - unfold py_assignment in H. returned_checks H.
    returned_dispatch H; reflexivity.
Qed.

(** For [relocate_empty_clusters] the list is the first seven. *)
Lemma kept_alive_relocate_empty_clusters
    (api : dpctl_capi) (queues_are_compatible : queue -> list queue -> bool)
    (n : Z) (a1 a2 a3 a4 a5 a6 a7 a8 : usm_ndarray)
    (q : queue) (deps : list event) (r : event * event) :
  py_relocate_empty_clusters api queues_are_compatible
    n a1 a2 a3 a4 a5 a6 a7 a8 q deps = returned r ->
  kept_alive (returned r) = [a1; a2; a3; a4; a5; a6; a7].
Proof.
  intros H. unfold py_relocate_empty_clusters in H. returned_checks H.
  returned_dispatch H; reflexivity.
Qed.

(** C9 (defect in the code): a [relocate_empty_clusters] call on well-formed
    arguments returns, and the keep-alive event it returns holds seven of
    the eight arrays: [per_sample_inertia], which the kernel writes to, is
    an argument of the call but is not kept alive. *)
Theorem relocate_empty_clusters_does_not_keep_inertia_alive :
  let X_t := array 1 [2; 4] 11 in
  let sample_weights := array 2 [4] 11 in
  let assignment_id := array 3 [4] 5 in
  let empty_clusters_list := array 4 [2] 5 in
  let sq_dist_to_nearest_centroid := array 5 [4] 11 in
  let centroid_t := array 6 [2; 2] 11 in
  let cluster_sizes := array 7 [2] 11 in
  let per_sample_inertia := array 8 [4] 11 in
  let c := m.relocate_empty_clusters 1 X_t sample_weights assignment_id
             empty_clusters_list sq_dist_to_nearest_centroid centroid_t
             cluster_sizes per_sample_inertia in
  let r := m.invoke numpy_api same_queue c 0 [] in
  is_error r = false /\
  kept_alive r =
    [X_t; sample_weights; assignment_id; empty_clusters_list;
     sq_dist_to_nearest_centroid; centroid_t; cluster_sizes] /\
  In per_sample_inertia (m.array_args c) /\
  ~ In per_sample_inertia (kept_alive r).
Proof.
  cbv zeta. split; [reflexivity|]. split; [reflexivity|]. split.
  - simpl. tauto.
  - intros H. vm_compute in H. intuition discriminate.
Qed.

(** *** The order statistic *)

Section ThresholdProperties.

Context {T : Type}.
Variable ltb : T -> T -> bool.

(** The comparison is that of a key, as it is for numbers. *)
Variable key : T -> Z.
Hypothesis ltb_key : forall x y, ltb x y = (key x <? key y).

Lemma maximum_in (l : list T) : forall x, In (maximum ltb x l) (x :: l).
Proof.
  induction l as [|y r IH]; intros x; simpl.
  - now left.
  - destruct (IH (if ltb x y then y else x)) as [H|H].
    + destruct (ltb x y); [right; left | left]; exact H.
    + right; right; exact H.
Qed.

Lemma maximum_upper_bound (l : list T) :
  forall x y, In y (x :: l) -> key y <= key (maximum ltb x l).
Proof.
  induction l as [|z r IH]; intros x y Hy; simpl.
  - destruct Hy as [<-|[]]. lia.
  - assert (Hx : key x <= key (if ltb x z then z else x)).
    { rewrite ltb_key. destruct (key x <? key z) eqn:E; [|lia].
      apply Z.ltb_lt in E. lia. }
    assert (Hz : key z <= key (if ltb x z then z else x)).
    { rewrite ltb_key. destruct (key x <? key z) eqn:E; [lia|].
      apply Z.ltb_ge in E. lia. }
    pose proof (IH (if ltb x z then z else x) _ (or_introl eq_refl)) as Hm.
    destruct Hy as [<-|[<-|Hy]]; [lia|lia|].
    apply IH. now right.
Qed.

Lemma drop_one_max_in (mx : T) (l : list T) (v : T) :
  In v (drop_one_max ltb mx l) -> In v l.
Proof.
  induction l as [|y r IH]; simpl; [tauto|].
  destruct (ltb y mx); simpl; intuition.
Qed.

(** Taking the maximum off removes one element, and that element has the
    key of the maximum: a count of the elements whose key satisfies [g]
    drops by one exactly when the key of the maximum satisfies [g]. *)
Lemma drop_one_max_count (g : Z -> bool) (mx : T) (l : list T) :
  (forall y, In y l -> key y <= key mx) ->
  (exists y, In y l /\ key mx <= key y) ->
  List.length (filter (fun x => g (key x)) l) =
  (List.length (filter (fun x => g (key x)) (drop_one_max ltb mx l))
   + if g (key mx) then 1 else 0)%nat.
Proof.
  induction l as [|y r IH]; intros Hub [w [Hw Hge]]; [destruct Hw|].
  simpl. rewrite ltb_key. destruct (key y <? key mx) eqn:E.
  - apply Z.ltb_lt in E. simpl.
    assert (Hr : List.length (filter (fun x => g (key x)) r) =
                 (List.length
                    (filter (fun x => g (key x)) (drop_one_max ltb mx r))
                  + if g (key mx) then 1 else 0)%nat).
    { apply IH.
      - intros z Hz. apply Hub. now right.
      - exists w. split; [|exact Hge].
        destruct Hw as [<-|Hw]; [lia|exact Hw]. }
    destruct (g (key y)); simpl; rewrite Hr; reflexivity.
  - apply Z.ltb_ge in E.
    assert (Hy : key y = key mx).
    { pose proof (Hub y (or_introl eq_refl)). lia. }
    rewrite Hy. destruct (g (key mx)); simpl; lia.
Qed.

Lemma drop_one_max_length (mx : T) (l : list T) :
  (forall y, In y l -> key y <= key mx) ->
  (exists y, In y l /\ key mx <= key y) ->
  List.length l = S (List.length (drop_one_max ltb mx l)).
Proof.
  intros Hub Hex.
  pose proof (drop_one_max_count (fun _ => true) mx l Hub Hex) as H.
  simpl in H.
  assert (Hall : forall l' : list T, filter (fun _ => true) l' = l').
  { induction l' as [|a l' IHl]; simpl; [reflexivity | now rewrite IHl]. }
  rewrite !Hall in H. lia.
Qed.

Lemma nothing_above_upper_bound (mx : T) (l : list T) :
  (forall y, In y l -> key y <= key mx) ->
  filter (fun y => ltb mx y) l = [].
Proof.
  induction l as [|a l' IHl]; intros Hub; simpl; [reflexivity|].
  rewrite ltb_key.
  replace (key mx <? key a) with false.
  - apply IHl. intros y Hy. apply Hub. now right.
  - symmetry. apply Z.ltb_ge. apply Hub. now left.
Qed.

(** The threshold kernel returns the order statistic: for [1 <= t <= n] the
    result exists and is the [t]-th largest element. *)
Lemma kth_largest_is_order_statistic (t : nat) :
  forall l : list T,
    (1 <= t <= List.length l)%nat ->
    exists v, kth_largest ltb t l = Some v /\ is_kth_largest ltb t l v.
Proof.
  induction t as [|k IH]; intros l [H1 Hn]; [lia|].
  destruct l as [|x r]; [simpl in Hn; lia|].
  set (mx := maximum ltb x r).
  pose proof (maximum_in r x) as Hin. fold mx in Hin.
  assert (Hub : forall y, In y (x :: r) -> key y <= key mx)
    by (intros y Hy; apply maximum_upper_bound; exact Hy).
  assert (Hex : exists y, In y (x :: r) /\ key mx <= key y)
    by (exists mx; split; [exact Hin | lia]).
  destruct k as [|k'].
  - exists mx. split; [reflexivity|]. unfold is_kth_largest.
    split; [exact Hin|]. split.
    + rewrite (nothing_above_upper_bound mx (x :: r) Hub). simpl. lia.
    + pose proof (filter_In (fun y => negb (ltb y mx)) mx (x :: r)) as Hf.
      assert (Hmem : In mx (filter (fun y => negb (ltb y mx)) (x :: r))).
      { apply Hf. split; [exact Hin|]. rewrite ltb_key, Z.ltb_irrefl.
        reflexivity. }
      destruct (filter (fun y => negb (ltb y mx)) (x :: r));
        [destruct Hmem | simpl; lia].
  - pose proof (drop_one_max_length mx (x :: r) Hub Hex) as Hlen.
    destruct (IH (drop_one_max ltb mx (x :: r))) as [v [Hv [Hvin [Hgt Hge]]]].
    { lia. }
    exists v. split.
    + change (kth_largest ltb (S (S k')) (x :: r))
        with (kth_largest ltb (S k') (drop_one_max ltb mx (x :: r))).
      exact Hv.
    + assert (Hvl : In v (x :: r)) by (eapply drop_one_max_in; exact Hvin).
      pose proof (Hub v Hvl) as Hvmx.
      split; [exact Hvl|]. split.
      * pose proof (drop_one_max_count (fun z => key v <? z) mx (x :: r)
                      Hub Hex) as Hc.
        assert (Heq : forall l' : list T,
                   filter (fun y => ltb v y) l' =
                   filter (fun y => key v <? key y) l').
        { intros l'. apply filter_ext. intros a. apply ltb_key. }
        rewrite Heq. rewrite Heq in Hgt. rewrite Hc.
        destruct (key v <? key mx); lia.
      * pose proof (drop_one_max_count (fun z => negb (z <? key v)) mx
                      (x :: r) Hub Hex) as Hc.
        assert (Heq : forall l' : list T,
                   filter (fun y => negb (ltb y v)) l' =
                   filter (fun y => negb (key y <? key v)) l').
        { intros l'. apply filter_ext. intros a. now rewrite ltb_key. }
        rewrite Heq. rewrite Heq in Hge. rewrite Hc.
        replace (key mx <? key v) with false
          by (symmetry; apply Z.ltb_ge; lia).
        cbn [negb]. lia.
Qed.

End ThresholdProperties.

(** Two comparisons that agree on the elements of a list select the same
    element of it. *)
Section ThresholdAgree.

Context {T : Type}.
Variables ltb ltb' : T -> T -> bool.

Lemma maximum_agree (l : list T) :
  forall x,
    (forall a b, In a (x :: l) -> In b (x :: l) -> ltb a b = ltb' a b) ->
    maximum ltb x l = maximum ltb' x l.
Proof.
  induction l as [|y r IH]; intros x H; [reflexivity|].
  cbn [maximum]. rewrite (H x y) by (simpl; auto).
  apply IH. intros a b Ha Hb.
  apply H; [destruct Ha as [<-|Ha] | destruct Hb as [<-|Hb]];
    try (right; right; assumption);
    destruct (ltb' x y); simpl; auto.
Qed.

Lemma drop_one_max_agree (mx : T) (l : list T) :
  (forall y, In y l -> ltb y mx = ltb' y mx) ->
  drop_one_max ltb mx l = drop_one_max ltb' mx l.
Proof.
  induction l as [|y r IH]; intros H; [reflexivity|].
  cbn [drop_one_max]. rewrite (H y) by (now left).
  destruct (ltb' y mx); [|reflexivity].
  f_equal. apply IH. intros z Hz. apply H. now right.
Qed.

Lemma kth_largest_agree (t : nat) :
  forall l,
    (forall a b, In a l -> In b l -> ltb a b = ltb' a b) ->
    kth_largest ltb t l = kth_largest ltb' t l.
Proof.
  induction t as [|k IH]; intros l H; [reflexivity|].
  destruct l as [|x r]; [reflexivity|].
  cbn [kth_largest]. rewrite (maximum_agree r x H).
  destruct k as [|k']; [reflexivity|].
  rewrite (drop_one_max_agree (maximum ltb' x r) (x :: r)).
  - apply IH. intros a b Ha Hb.
    apply H; eapply drop_one_max_in; eassumption.
  - intros y Hy. apply H; [exact Hy|]. apply maximum_in.
Qed.

Lemma is_kth_largest_agree (t : nat) (l : list T) (v : T) :
  (forall a b, In a l -> In b l -> ltb a b = ltb' a b) ->
  is_kth_largest ltb' t l v -> is_kth_largest ltb t l v.
Proof.
  intros H (Hin & Hgt & Hge). split; [exact Hin|].
  rewrite (filter_ext_in (fun x => ltb v x) (fun x => ltb' v x))
    by (intros a Ha; apply H; assumption).
  rewrite (filter_ext_in (fun x => negb (ltb x v))
             (fun x => negb (ltb' x v)))
    by (intros a Ha; f_equal; apply H; assumption).
  split; assumption.
Qed.

End ThresholdAgree.

(** *** The threshold kernel on memory *)

Lemma le_encode_length (n : nat) : forall x, List.length (le_encode n x) = n.
Proof.
  induction n as [|n IH]; intros x; simpl; [reflexivity | now rewrite IH].
Qed.

Lemma le_decode_encode (n : nat) :
  forall x, 0 <= x < 256 ^ Z.of_nat n -> le_decode (le_encode n x) = x.
Proof.
  induction n as [|n IH]; intros x Hx.
  - simpl in *. lia.
  - cbn [le_encode le_decode]. rewrite IH.
    + pose proof (Z.div_mod x 256). lia.
    + rewrite Nat2Z.inj_succ, Z.pow_succ_r in Hx by lia.
      split; [apply Z.div_pos; lia|].
      apply Z.div_lt_upper_bound; lia.
Qed.

Lemma load_bytes_of (w : nat) (xs : list Z) :
  Forall (fun x => 0 <= x < 256 ^ Z.of_nat w) xs ->
  load w (List.length xs) (bytes_of w xs) = xs.
Proof.
  induction 1 as [|x r Hx _ IH]; [reflexivity|].
  cbn [List.length load bytes_of flat_map].
  fold (bytes_of w r).
  rewrite firstn_app, skipn_app, le_encode_length, Nat.sub_diag.
  rewrite firstn_all2 by (rewrite le_encode_length; lia).
  rewrite skipn_all2 by (rewrite le_encode_length; lia).
  cbn [firstn skipn app]. rewrite app_nil_r, le_decode_encode by exact Hx.
  rewrite IH. reflexivity.
Qed.

Lemma load_store_first (w : nat) (x : Z) (bytes : list Z) :
  0 <= x < 256 ^ Z.of_nat w ->
  load w 1 (store_first w x bytes) = [x].
Proof.
  intros Hx. unfold store_first. cbn [load].
  rewrite firstn_app, le_encode_length, Nat.sub_diag.
  rewrite firstn_all2 by (rewrite le_encode_length; lia).
  cbn [firstn]. rewrite app_nil_r, le_decode_encode by exact Hx.
  reflexivity.
Qed.

(** On single-precision arrays without NaN the wrapper does what the
    specification asks: for [1 <= topk <= n] the threshold buffer ends up
    holding the [topk]-th largest of the [n] numbers in the data buffer,
    and no other buffer changes. *)
Lemma py_compute_threshold_float_order_statistic
    (api : dpctl_capi) (queues_are_compatible : queue -> list queue -> bool)
    (data : usm_ndarray) (topk : Z) (threshold : usm_ndarray)
    (q : queue) (deps : list event) (mem : memory) (xs : list Z) :
  get_ndim data = 1 ->
  all_c_contiguous [data; threshold] = true ->
  get_size threshold = 1 ->
  get_typenum data = UAR_FLOAT_ api ->
  get_typenum threshold = UAR_FLOAT_ api ->
  queues_are_compatible q [get_queue data; get_queue threshold] = true ->
  mem (usm_data data) = bytes_of 4 xs ->
  Z.of_nat (List.length xs) = get_shape data 0 ->
  Forall (fun x => 0 <= x < 2 ^ 32) xs ->
  Forall (fun x => is_nan float x = false) xs ->
  1 <= topk <= get_shape data 0 ->
  exists mem' v,
    memory_after
      (py_compute_threshold api queues_are_compatible
         data topk threshold q deps) mem = Some mem' /\
    load 4 1 (mem' (usm_data threshold)) = [v] /\
    is_kth_largest (float_ltb float) (Z.to_nat topk) xs v /\
    forall a, a <> usm_data threshold -> mem' a = mem a.
Proof.
  intros Hnd Hc Hsz Hd Ht Hq Hmem Hlen Hrange Hnan Hk.
  assert (Hsup : supported_data api (get_typenum data) = true).
  { unfold supported_data. rewrite Hd, Z.eqb_refl. reflexivity. }
  assert (Hty : get_typenum data = get_typenum threshold) by congruence.
  assert (Hk0 : topk <> 0) by lia.
  rewrite (py_compute_threshold_submits
             api queues_are_compatible data topk threshold q deps
             Hnd Hc Hsz Hty Hsup Hq Hk0).
  cbn [memory_after exec_event]. unfold exec_compute_threshold.
  cbn [address get_data sizeof]. rewrite Hmem.
  change (Z.to_nat 4) with 4%nat.
  replace (Z.to_nat (get_shape data 0)) with (List.length xs) by lia.
  rewrite load_bytes_of by exact Hrange.
  set (by_key := fun x y => float_key float x <? float_key float y).
  assert (Hagree : forall a b, In a xs -> In b xs ->
                     float_ltb float a b = by_key a b).
  { intros a b Ha Hb. unfold float_ltb.
    rewrite (proj1 (Forall_forall _ _) Hnan a Ha).
    rewrite (proj1 (Forall_forall _ _) Hnan b Hb). reflexivity. }
  destruct (kth_largest_is_order_statistic by_key (float_key float)
              (fun x y => eq_refl) (Z.to_nat topk) xs) as [v [Hv Hspec]].
  { lia. }
  rewrite (kth_largest_agree (float_ltb float) by_key _ xs Hagree), Hv.
  apply (is_kth_largest_agree (float_ltb float) by_key _ xs v Hagree)
    in Hspec. eexists. exists v. split; [reflexivity|].
  split; [|split; [exact Hspec|]].
  - unfold store. rewrite Z.eqb_refl. apply load_store_first.
    destruct Hspec as [Hin _].
    apply (proj1 (Forall_forall _ _) Hrange) in Hin. exact Hin.
  - intros a Ha. unfold store.
    replace (a =? usm_data threshold) with false; [reflexivity|].
    symmetry. apply Z.eqb_neq. exact Ha.
Qed.

(** C1 (defect in the code): on double-precision arrays the threshold is
    not the order statistic.  The data are the two numbers 1.0 and 2.0 and
    the threshold buffer holds 0.0; the largest element ([topk = 1]) is
    2.0.  The kernel the wrapper submits reads the first eight bytes of the
    data as the two single-precision numbers 0.0 and 1.875 and stores 1.875
    in the first four bytes of the threshold buffer, which then holds
    neither 2.0 nor any element of the data. *)
Theorem py_compute_threshold_double_not_order_statistic :
  let data := array 1 [2] (UAR_DOUBLE_ numpy_api) in
  let threshold := array 2 [1] (UAR_DOUBLE_ numpy_api) in
  let xs := [double_1_0; double_2_0] in
  let mem := store (store (fun _ => []) 1 (bytes_of 8 xs)) 2 (bytes_of 8 [0]) in
  is_kth_largest (float_ltb double) 1 xs double_2_0 /\
  load 4 2 (mem 1) = [0; float_1_875] /\
  exists mem',
    memory_after
      (py_compute_threshold numpy_api same_queue data 1 threshold 0 [])
      mem = Some mem' /\
    load 8 1 (mem' 2) = [float_1_875] /\
    ~ In float_1_875 xs.
Proof.
  cbv zeta. split; [|split].
  - unfold is_kth_largest. split; [right; left; reflexivity|].
    split; vm_compute; lia.
  - reflexivity.
  - eexists. split; [reflexivity|]. split; [reflexivity|].
    intros H. vm_compute in H. intuition discriminate.
Qed.

(** *** Facts about buffers *)

Section BufferFacts.

Context {A : Type}.

Lemma set_nth_length (x : A) (buf : list A) :
  forall i, List.length (set_nth i x buf) = List.length buf.
Proof.
  induction buf as [|y r IH]; intros [|i]; simpl; auto.
Qed.

Lemma firstn_set_nth (x : A) (buf : list A) :
  forall i, (i < List.length buf)%nat ->
    firstn (S i) (set_nth i x buf) = firstn i buf ++ [x].
Proof.
  induction buf as [|y r IH]; intros [|i] Hi; simpl in *; try lia.
  - reflexivity.
  - f_equal. apply IH. lia.
Qed.

Lemma skipn_set_nth (x : A) (buf : list A) :
  forall i n, (i < n)%nat -> skipn n (set_nth i x buf) = skipn n buf.
Proof.
  induction buf as [|y r IH]; intros [|i] [|n] Hi; simpl; try lia;
    try reflexivity.
  apply IH. lia.
Qed.

(** Element [(i, j)] of a row-major buffer whose rows have [n] entries. *)
Lemma nth_concat_uniform (n : nat) (d : A) (rows : list (list A)) :
  Forall (fun r => List.length r = n) rows ->
  forall i j, (j < n)%nat ->
    nth (i * n + j) (List.concat rows) d = nth j (nth i rows []) d.
Proof.
  induction 1 as [|r rows Hr _ IH]; intros i j Hj.
  - simpl. destruct (i * n + j)%nat; destruct i; destruct j; reflexivity.
  - destruct i as [|i]; simpl.
    + apply app_nth1. lia.
    + rewrite app_nth2 by lia.
      replace (n + i * n + j - List.length r)%nat with (i * n + j)%nat by lia.
      apply IH, Hj.
Qed.

Lemma concat_uniform_length (n : nat) (rows : list (list A)) :
  Forall (fun r => List.length r = n) rows ->
  List.length (List.concat rows) = (List.length rows * n)%nat.
Proof.
  induction 1 as [|r rows Hr _ IH]; simpl; [reflexivity|].
  rewrite length_app, IH, Hr. reflexivity.
Qed.

(** A loop over the indices of a list is a fold over the list. *)
Lemma fold_left_indices {B : Type} (d : A)
    (f : B -> nat -> B) (g : B -> A -> B) (l : list A) :
  forall (start : nat) (acc : B),
    (forall b i, (i < List.length l)%nat ->
                 f b (start + i)%nat = g b (nth i l d)) ->
    fold_left f (seq start (List.length l)) acc = fold_left g l acc.
Proof.
  induction l as [|x r IH]; intros start acc Hfg; [reflexivity|].
  assert (H0 : f acc start = g acc x).
  { rewrite <- (Nat.add_0_r start) at 1. apply (Hfg acc O). simpl. lia. }
  simpl. rewrite H0. apply IH.
  intros b i Hi. replace (S start + i)%nat with (start + S i)%nat by lia.
  apply (Hfg b (S i)). simpl. lia.
Qed.

End BufferFacts.

(** *** The reduction of the private copies *)

Section ReduceProperties.

Context {T : Type}.
Variable zero : T.
Variable add : T -> T -> T.
Variable is_zero : T -> bool.

(** The strided sum over the flat buffer of the sizes is the sum across the
    copies. *)
Lemma sum_copies_sizes (K : nat) (sizes : list (list T)) (k : nat) :
  Forall (fun copy => List.length copy = K) sizes ->
  (k < K)%nat ->
  sum_copies zero add (List.length sizes) K (List.concat sizes) k =
  size_across_copies zero add sizes k.
Proof.
  intros Hrows Hk. unfold sum_copies, size_across_copies.
  apply (fold_left_indices []). intros b i _. simpl.
  rewrite nth_concat_uniform by assumption. reflexivity.
Qed.

(** The same for the coordinate sums, whose copies are matrices. *)
Lemma sum_copies_sums (F K : nat) (sums : list (list (list T))) (f k : nat) :
  Forall (fun copy => List.length copy = F /\
                      Forall (fun row => List.length row = K) copy) sums ->
  (f < F)%nat -> (k < K)%nat ->
  sum_copies zero add (List.length sums) (F * K)
    (List.concat (map (@List.concat T) sums)) (f * K + k) =
  sum_across_copies zero add sums f k.
Proof.
  intros Hcopies Hf Hk. unfold sum_copies, sum_across_copies.
  apply (fold_left_indices []). intros b i Hi. simpl.
  assert (Hflat : Forall (fun r => List.length r = (F * K)%nat)
                    (map (@List.concat T) sums)).
  { apply Forall_map. eapply Forall_impl; [|exact Hcopies].
    intros copy [HF HK]. rewrite (concat_uniform_length K) by exact HK.
    now rewrite HF. }
  rewrite nth_concat_uniform by (assumption || nia).
  change (@nil T) with (List.concat (@nil (list T))).
  rewrite map_nth.
  assert (Hrow : Forall (fun row => List.length row = K) (nth i sums [])).
  { apply (proj1 (Forall_forall _ _) Hcopies). apply nth_In. exact Hi. }
  rewrite nth_concat_uniform by assumption. reflexivity.
Qed.

(** The compaction pass, started with [count] ids already in the list,
    appends the ids of the empty clusters among [ks] to them. *)
Lemma compact_fold (sizes : list T) (ks : list nat) :
  let p := fun k => is_zero (nth k sizes zero) in
  forall (lst : list Z) (count : nat),
    (count + List.length (filter p ks) <= List.length lst)%nat ->
    fold_left (compact_step zero is_zero sizes) ks (lst, count) =
    (firstn count lst ++ map Z.of_nat (filter p ks)
       ++ skipn (count + List.length (filter p ks)) lst,
     (count + List.length (filter p ks))%nat).
Proof.
  intros p. induction ks as [|k ks IH]; intros lst count Hlen.
  - simpl. rewrite Nat.add_0_r, firstn_skipn. reflexivity.
  - cbn [fold_left filter]. unfold compact_step at 2. cbn [fst snd].
    fold (p k). cbn [filter] in Hlen. destruct (p k) eqn:Hp.
    + cbn [List.length] in Hlen |- *.
      rewrite IH by (rewrite set_nth_length; lia).
      rewrite firstn_set_nth by lia.
      rewrite skipn_set_nth by lia.
      rewrite <- app_assoc. cbn [map app].
      rewrite Nat.add_succ_r. reflexivity.
    + apply IH. exact Hlen.
Qed.

Lemma filter_length_le {A : Type} (p : A -> bool) (l : list A) :
  (List.length (filter p l) <= List.length l)%nat.
Proof.
  induction l as [|x r IH]; simpl; [lia|]. destruct (p x); simpl; lia.
Qed.

Lemma nth_map_seq {B : Type} (g : nat -> B) (d : B) (n i : nat) :
  (i < n)%nat -> nth i (map g (seq 0 n)) d = g i.
Proof.
  intros Hi. rewrite (nth_indep _ d (g O)) by (rewrite length_map, length_seq; lia).
  rewrite (map_nth g (seq 0 n) O i), seq_nth by lia. reflexivity.
Qed.

(** On accepted arguments the wrapper submits the kernel with the three
    dimensions of the private copies. *)
Lemma py_reduce_centroids_data_accepts
    (api : dpctl_capi) (queues_are_compatible : queue -> list queue -> bool)
    (q : queue) (deps : list event) (a1 a2 a3 a4 a5 a6 : usm_ndarray)
    (C F K : nat) :
  reduce_arguments api queues_are_compatible q a1 a2 a3 a4 a5 a6 C F K ->
  exists evs,
    py_reduce_centroids_data api queues_are_compatible
      a1 a2 a3 a4 a5 a6 q deps = returned evs /\
    scalar_args (snd evs) = [Z.of_nat C; Z.of_nat F; Z.of_nat K; 256].
Proof.
  intros (H1 & H2 & H3 & H4 & H5 & H6 & Hc & Hq & Hd & T2 & T3 & T4 & Hi & T5).
  unfold py_reduce_centroids_data, get_ndim, get_shape.
  rewrite H1, H2, H3, H4, H5, H6, Hc, Hq, T2, T3, T4, T5.
  cbn [List.length nth Z.of_nat Pos.of_succ_nat Pos.succ].
  rewrite !Z.eqb_refl. cbn [negb orb].
  unfold supported_data in Hd. unfold supported_index in Hi.
  destruct (get_typenum a1 =? UAR_FLOAT_ api),
           (get_typenum a1 =? UAR_DOUBLE_ api),
           (get_typenum a6 =? UAR_INT32_ api),
           (get_typenum a6 =? UAR_INT64_ api);
    try discriminate; eexists; (split; [reflexivity|reflexivity]).
Qed.

End ReduceProperties.

Lemma ctype_eqb_refl (A : ctype) : ctype_eqb A A = true.
Proof.
  destruct A; reflexivity.
Qed.

(** The reduction on the flat buffers of [C] well-shaped copies. *)
Lemma reduce_centroid_data_spec
    {T : Type} (zero : T) (add : T -> T -> T) (is_zero : T -> bool)
    (C F K : nat)
    (sizes : list (list T)) (sums : list (list (list T)))
    (old_list : list Z) :
  List.length sizes = C ->
  Forall (fun copy => List.length copy = K) sizes ->
  List.length sums = C ->
  Forall (fun copy => List.length copy = F /\
                      Forall (fun row => List.length row = K) copy) sums ->
  List.length old_list = K ->
  let out :=
    reduce_centroid_data zero add is_zero C F K
      (List.concat sizes) (List.concat (map (@List.concat T) sums))
      old_list in
  let n :=
    List.length (filter (empty_cluster zero add is_zero sizes) (seq 0 K)) in
  red_cluster_sizes out = map (size_across_copies zero add sizes) (seq 0 K) /\
  List.length (red_centroids_t out) = (F * K)%nat /\
  (forall f k, (f < F)%nat -> (k < K)%nat ->
     nth (f * K + k) (red_centroids_t out) zero =
     sum_across_copies zero add sums f k) /\
  red_n_empty_clusters out = Z.of_nat n /\
  List.length (red_empty_clusters_list out) = K /\
  NoDup (firstn n (red_empty_clusters_list out)) /\
  (forall z, In z (firstn n (red_empty_clusters_list out)) <->
     exists k, (k < K)%nat /\ z = Z.of_nat k /\
               empty_cluster zero add is_zero sizes k = true) /\
  skipn n (red_empty_clusters_list out) = skipn n old_list.
Proof.
  intros Hsz Hrows Hsm Hcopies Hold. cbv zeta.
  unfold reduce_centroid_data.
  cbn [red_cluster_sizes red_centroids_t red_empty_clusters_list
       red_n_empty_clusters].
  assert (Hsizes :
            map (sum_copies zero add C K (List.concat sizes)) (seq 0 K) =
            map (size_across_copies zero add sizes) (seq 0 K)).
  { apply map_ext_in. intros k Hk. apply in_seq in Hk. rewrite <- Hsz.
    apply sum_copies_sizes; [exact Hrows | lia]. }
  rewrite Hsizes.
  set (p := empty_cluster zero add is_zero sizes).
  assert (Hfilter :
            filter (fun k => is_zero
                      (nth k (map (size_across_copies zero add sizes)
                                (seq 0 K)) zero)) (seq 0 K) =
            filter p (seq 0 K)).
  { apply filter_ext_in. intros k Hk. apply in_seq in Hk.
    rewrite nth_map_seq by lia. reflexivity. }
  pose proof (filter_length_le p (seq 0 K)) as Hle.
  rewrite length_seq in Hle.
  rewrite (compact_fold zero is_zero) by (rewrite Hfilter; simpl; lia).
  rewrite Hfilter. cbn [fst snd firstn app plus].
  split; [reflexivity|]. split; [now rewrite length_map, length_seq|].
  split.
  { intros f k Hf Hk.
    rewrite nth_map_seq by nia. rewrite <- Hsm.
    apply sum_copies_sums; assumption. }
  split; [reflexivity|].
  assert (Hpre : firstn (List.length (filter p (seq 0 K)))
                   (map Z.of_nat (filter p (seq 0 K))
                    ++ skipn (List.length (filter p (seq 0 K))) old_list) =
                 map Z.of_nat (filter p (seq 0 K))).
  { rewrite firstn_app, length_map, Nat.sub_diag. cbn [firstn].
    rewrite app_nil_r. apply firstn_all2. rewrite length_map. lia. }
  rewrite Hpre.
  split; [|split; [|split]].
  - rewrite length_app, length_map, length_skipn. lia.
  - apply Finite.Injective_map_NoDup.
    + intros x y Hxy. lia.
    + apply NoDup_filter, seq_NoDup.
  - intros z. rewrite in_map_iff. split.
    + intros [k [<- Hk]]. apply filter_In in Hk. destruct Hk as [Hk Hp].
      apply in_seq in Hk. exists k. repeat split; [lia | exact Hp].
    + intros [k [Hk [-> Hp]]]. exists k. split; [reflexivity|].
      apply filter_In. split; [apply in_seq; lia | exact Hp].
  - rewrite skipn_app, length_map, Nat.sub_diag. cbn [skipn].
    rewrite skipn_all2 by (rewrite length_map; lia). reflexivity.
Qed.

(** On accepted arguments the wrapper submits the reduction kernel on the
    six arrays, instantiated with the C types of their type numbers. *)
Lemma py_reduce_centroids_data_submits
    (api : dpctl_capi) (queues_are_compatible : queue -> list queue -> bool)
    (q : queue) (deps : list event) (a1 a2 a3 a4 a5 a6 : usm_ndarray)
    (C F K : nat) :
  reduce_arguments api queues_are_compatible q a1 a2 a3 a4 a5 a6 C F K ->
  exists dataT indT ht_ev,
    py_reduce_centroids_data api queues_are_compatible
      a1 a2 a3 a4 a5 a6 q deps =
    returned
      (ht_ev,
       kernel_event reduce_centroid_data_kernel
         [targ_type dataT; targ_type indT] q
         [arg_scalar (Z.of_nat C); arg_scalar (Z.of_nat F);
          arg_scalar (Z.of_nat K); arg_scalar 256;
          arg_ptr (get_data dataT a1); arg_ptr (get_data dataT a2);
          arg_ptr (get_data dataT a3); arg_ptr (get_data dataT a4);
          arg_ptr (get_data indT a5); arg_ptr (get_data indT a6)] deps) /\
    typenum_of api dataT = get_typenum a1 /\
    typenum_of api indT = get_typenum a6.
Proof.
  intros (H1 & H2 & H3 & H4 & H5 & H6 & Hc & Hq & Hd & T2 & T3 & T4 & Hi & T5).
  unfold py_reduce_centroids_data, get_ndim, get_shape.
  rewrite H1, H2, H3, H4, H5, H6, Hc, Hq, T2, T3, T4, T5.
  cbn [List.length nth Z.of_nat Pos.of_succ_nat Pos.succ].
  rewrite !Z.eqb_refl. cbn [negb orb].
  unfold supported_data in Hd. unfold supported_index in Hi.
  destruct (get_typenum a1 =? UAR_FLOAT_ api) eqn:E1;
    destruct (get_typenum a1 =? UAR_DOUBLE_ api) eqn:E2;
    destruct (get_typenum a6 =? UAR_INT32_ api) eqn:E3;
    destruct (get_typenum a6 =? UAR_INT64_ api) eqn:E4;
    try discriminate;
    try apply Z.eqb_eq in E1; try apply Z.eqb_eq in E2;
    try apply Z.eqb_eq in E3; try apply Z.eqb_eq in E4;
    cbn [andb bind];
    do 3 eexists; (split; [reflexivity|]); split; symmetry; eassumption.
Qed.

(** C3: for [C] private copies of the per-cluster sizes ([C x K]) and of
    the coordinate sums ([C x F x K]) held by the two input arrays, a
    [reduce_centroids_data] call on accepted arguments leaves in the output
    arrays: sizes that are the sums across the copies; coordinate sums that
    are the sums across the copies; a list whose first [n] entries are the
    ids of the clusters whose reduced size is zero, each once and no other;
    and the scalar [n] itself, the number of these clusters.  The inputs
    are unchanged. *)
Theorem reduce_centroids_data_sums_and_empty_clusters
    {T : Type} (zero : T) (add : T -> T -> T) (is_zero : T -> bool)
    (ltb : T -> T -> bool)
    (api : dpctl_capi) (queues_are_compatible : queue -> list queue -> bool)
    (q : queue) (deps : list event) (a1 a2 a3 a4 a5 a6 : usm_ndarray)
    (C F K : nat)
    (sizes : list (list T)) (sums : list (list (list T)))
    (old_sizes old_sums : list T) (old_list : list Z) (old_count : Z)
    (mem : typed_memory) :
  reduce_arguments api queues_are_compatible q a1 a2 a3 a4 a5 a6 C F K ->
  NoDup (map usm_data [a1; a2; a3; a4; a5; a6]) ->
  List.length sizes = C ->
  Forall (fun copy => List.length copy = K) sizes ->
  List.length sums = C ->
  Forall (fun copy => List.length copy = F /\
                      Forall (fun row => List.length row = K) copy) sums ->
  holds_data mem a1 (List.concat sizes) ->
  holds_data mem a2 (List.concat (map (@List.concat T) sums)) ->
  holds_data mem a3 old_sizes -> List.length old_sizes = K ->
  holds_data mem a4 old_sums -> List.length old_sums = (F * K)%nat ->
  holds_indices mem a5 old_list -> List.length old_list = K ->
  holds_indices mem a6 [old_count] ->
  let n :=
    List.length (filter (empty_cluster zero add is_zero sizes) (seq 0 K)) in
  exists mem' out_sums out_list,
    buffers_after api zero add is_zero ltb
      (py_reduce_centroids_data api queues_are_compatible
         a1 a2 a3 a4 a5 a6 q deps) mem = Some mem' /\
    holds_data mem' a3 (map (size_across_copies zero add sizes) (seq 0 K)) /\
    holds_data mem' a4 out_sums /\
    List.length out_sums = (F * K)%nat /\
    (forall f k, (f < F)%nat -> (k < K)%nat ->
       nth (f * K + k) out_sums zero = sum_across_copies zero add sums f k) /\
    holds_indices mem' a5 out_list /\
    List.length out_list = K /\
    NoDup (firstn n out_list) /\
    (forall z, In z (firstn n out_list) <->
       exists k, (k < K)%nat /\ z = Z.of_nat k /\
                 empty_cluster zero add is_zero sizes k = true) /\
    skipn n out_list = skipn n old_list /\
    holds_indices mem' a6 [Z.of_nat n] /\
    holds_data mem' a1 (List.concat sizes) /\
    holds_data mem' a2 (List.concat (map (@List.concat T) sums)).
Proof.
  intros Hargs Hnd Hsz Hrows Hsm Hcopies M1 M2 M3 L3 M4 L4 M5 L5 M6 n.
  destruct (py_reduce_centroids_data_submits api queues_are_compatible
              q deps a1 a2 a3 a4 a5 a6 C F K Hargs)
    as (dataT & indT & ht_ev & Hret & HdT & HiT).
  destruct Hargs as (_ & _ & _ & _ & _ & _ & _ & _ & _ & T2 & T3 & T4 & _ & T5).
  destruct (reduce_centroid_data_spec zero add is_zero C F K sizes sums
              old_list Hsz Hrows Hsm Hcopies L5)
    as (S1 & S2 & S3 & S4 & S5 & S6 & S7 & S8).
  fold n in S4, S6, S7, S8.
  unfold holds_data, holds_indices in *.
  rewrite Hret. cbn [buffers_after run_event].
  unfold exec_reduce_centroid_data.
  cbn [forallb pointee get_data andb]. rewrite !ctype_eqb_refl. cbn [andb].
  unfold read_data, read_indices. cbn [address get_data pointee].
  rewrite M1, M2, M3, M4, M5, M6. cbn [buf_typenum buf_contents].
  rewrite HdT, HiT, T2, T3, T4, T5, !Z.eqb_refl.
  rewrite !Nat2Z.id.
  eexists. exists (red_centroids_t
                     (reduce_centroid_data zero add is_zero C F K
                        (List.concat sizes)
                        (List.concat (map (@List.concat T) sums)) old_list)).
  exists (red_empty_clusters_list
            (reduce_centroid_data zero add is_zero C F K
               (List.concat sizes)
               (List.concat (map (@List.concat T) sums)) old_list)).
  split; [reflexivity|].
  cbn [map] in Hnd.
  repeat match goal with
  | H : NoDup (_ :: _) |- _ =>
      let H1 := fresh in let H2 := fresh in
      apply NoDup_cons_iff in H; destruct H as [H1 H2]; cbn [In] in H1
  end.
  unfold overwrite. cbn [address get_data].
  repeat match goal with
  | |- context [usm_data ?x =? usm_data ?x] =>
      rewrite (Z.eqb_refl (usm_data x))
  | |- context [usm_data ?x =? usm_data ?y] =>
      replace (usm_data x =? usm_data y) with false
        by (symmetry; apply Z.eqb_neq; intuition congruence)
  end.
  rewrite M1, M2, M3, M4, M5, M6. cbn [buf_typenum].
  rewrite ?T2, ?T3, ?T4, ?T5.
  unfold store_prefix. rewrite S1, S4.
  rewrite length_map, length_seq, S2.
  rewrite (skipn_all2 old_sizes), (skipn_all2 old_sums) by lia.
  rewrite !app_nil_r. cbn [List.length skipn app].
  repeat split; try reflexivity; try assumption.
  - apply S7.
  - apply S7.
Qed.

(** A [reduce_centroids_data] call on two copies of three cluster sizes. *)
Lemma reduce_centroids_data_sums_and_empty_clusters_witness :
  let a1 := array 1 [2; 3] 11 in
  let a2 := array 2 [2; 2; 3] 11 in
  let a3 := array 3 [3] 11 in
  let a4 := array 4 [2; 3] 11 in
  let a5 := array 5 [3] 5 in
  let a6 := array 6 [1] 5 in
  let sizes := [[1; 0; 2]; [3; 0; 0]] in
  let sums := [[[1; 2; 3]; [4; 5; 6]]; [[10; 20; 30]; [40; 50; 60]]] in
  let mem :=
    memory_of
      [(a1, data_of (List.concat sizes));
       (a2, data_of (List.concat (map (@List.concat Z) sums)));
       (a3, data_of [9; 9; 9]); (a4, data_of [9; 9; 9; 9; 9; 9]);
       (a5, indices_of [-1; -1; -1]); (a6, indices_of [7])] in
  (reduce_arguments numpy_api same_queue 0 a1 a2 a3 a4 a5 a6 2 2 3 /\
   NoDup (map usm_data [a1; a2; a3; a4; a5; a6])) /\
  exists mem',
    buffers_after numpy_api 0 Z.add (Z.eqb 0) Z.ltb
      (py_reduce_centroids_data numpy_api same_queue
         a1 a2 a3 a4 a5 a6 0 []) mem = Some mem' /\
    holds_data mem' a3 (map (size_across_copies 0 Z.add sizes) (seq 0 3)) /\
    holds_indices mem' a6
      [Z.of_nat (List.length
                   (filter (empty_cluster 0 Z.add (Z.eqb 0) sizes)
                           (seq 0 3)))].
Proof.
  cbv zeta.
  assert (Hargs : reduce_arguments numpy_api same_queue 0
                    (array 1 [2; 3] 11) (array 2 [2; 2; 3] 11)
                    (array 3 [3] 11) (array 4 [2; 3] 11)
                    (array 5 [3] 5) (array 6 [1] 5) 2 2 3)
    by (repeat split; reflexivity).
  assert (Hnd : NoDup (map usm_data
                         [array 1 [2; 3] 11; array 2 [2; 2; 3] 11;
                          array 3 [3] 11; array 4 [2; 3] 11;
                          array 5 [3] 5; array 6 [1] 5])).
  { cbn. repeat constructor; cbn; intuition discriminate. }
  split; [split; assumption|].
  destruct (reduce_centroids_data_sums_and_empty_clusters
              0 Z.add (Z.eqb 0) Z.ltb numpy_api same_queue 0 []
              (array 1 [2; 3] 11) (array 2 [2; 2; 3] 11)
              (array 3 [3] 11) (array 4 [2; 3] 11)
              (array 5 [3] 5) (array 6 [1] 5) 2 2 3
              [[1; 0; 2]; [3; 0; 0]]
              [[[1; 2; 3]; [4; 5; 6]]; [[10; 20; 30]; [40; 50; 60]]]
              [9; 9; 9] [9; 9; 9; 9; 9; 9] [-1; -1; -1] 7
              (memory_of
                 [(array 1 [2; 3] 11, data_of [1; 0; 2; 3; 0; 0]);
                  (array 2 [2; 2; 3] 11,
                   data_of [1; 2; 3; 4; 5; 6; 10; 20; 30; 40; 50; 60]);
                  (array 3 [3] 11, data_of [9; 9; 9]);
                  (array 4 [2; 3] 11, data_of [9; 9; 9; 9; 9; 9]);
                  (array 5 [3] 5, indices_of [-1; -1; -1]);
                  (array 6 [1] 5, indices_of [7])])
              Hargs Hnd)
    as (mem' & out_sums & out_list & Hrun & H3 & _ & _ & _ & _ & _ & _ & _
        & _ & H6 & _);
    try reflexivity; try (repeat constructor).
  exists mem'. repeat split; assumption.
Defined.

(** *** The selection of far samples *)

Section SelectProperties.

Context {T : Type}.
Variable ltb : T -> T -> bool.

Lemma hits_length (p : T -> bool) (ds : list T) :
  forall i, List.length (hits p i ds) = List.length (filter p ds).
Proof.
  induction ds as [|d r IH]; intros i; simpl; [reflexivity|].
  destruct (p d); simpl; now rewrite IH.
Qed.

Lemma hits_in (p : T -> bool) (ds : list T) :
  forall i j,
    In j (hits p i ds) <->
    (i <= j)%nat /\
    exists d, nth_error ds (j - i) = Some d /\ p d = true.
Proof.
  induction ds as [|d r IH]; intros i j; simpl.
  - split; [tauto|]. intros [_ [d [H _]]]. destruct (j - i)%nat; discriminate.
  - assert (Hrest : In j (hits p (S i) r) <->
                    (i < j)%nat /\
                    exists d', nth_error (d :: r) (j - i) = Some d' /\
                               p d' = true).
    { rewrite IH. split.
      - intros [Hle [d' [Hn Hp]]]. split; [lia|]. exists d'.
        split; [|exact Hp].
        replace (j - i)%nat with (S (j - S i)) by lia. exact Hn.
      - intros [Hlt [d' [Hn Hp]]]. split; [lia|]. exists d'.
        split; [|exact Hp].
        replace (j - i)%nat with (S (j - S i)) in Hn by lia. exact Hn. }
    destruct (p d) eqn:Hp.
    + simpl. rewrite Hrest. split.
      * intros [<-|[Hlt Hex]].
        -- split; [lia|]. exists d. rewrite Nat.sub_diag. now split.
        -- split; [lia | exact Hex].
      * intros [Hle Hex]. destruct (Nat.eq_dec i j) as [->|Hne];
          [now left | right; split; [lia | exact Hex]].
    + rewrite Hrest. split.
      * intros [Hlt Hex]. split; [lia | exact Hex].
      * intros [Hle [d' [Hn Hp']]].
        destruct (Nat.eq_dec i j) as [->|Hne].
        -- rewrite Nat.sub_diag in Hn. simpl in Hn. congruence.
        -- split; [lia|]. exists d'. now split.
Qed.

Lemma hits_NoDup (p : T -> bool) (ds : list T) :
  forall i, NoDup (hits p i ds).
Proof.
  induction ds as [|d r IH]; intros i; simpl; [constructor|].
  destruct (p d); [|apply IH]. constructor; [|apply IH].
  intros Hin. apply hits_in in Hin. lia.
Qed.

(** One pass writes a prefix of the hits behind the entries already there. *)
Lemma select_pass_spec (p : T -> bool) (limit : nat) (ds : list T) :
  forall (i : nat) (buf : list Z) (pos : nat),
    let w := firstn (limit - pos) (hits p i ds) in
    (pos + List.length w <= List.length buf)%nat ->
    select_pass p limit i ds buf pos =
    (firstn pos buf ++ map Z.of_nat w ++ skipn (pos + List.length w) buf,
     (pos + List.length w)%nat).
Proof.
  induction ds as [|d r IH]; intros i buf pos w Hlen; subst w.
  - simpl. rewrite firstn_nil. simpl. rewrite Nat.add_0_r, firstn_skipn.
    reflexivity.
  - cbn [select_pass hits] in *. destruct (p d) eqn:Hp; cbn [andb].
    + destruct (pos <? limit)%nat eqn:Hlim.
      * apply Nat.ltb_lt in Hlim.
        replace (limit - pos)%nat with (S (limit - S pos)) in * by lia.
        cbn [firstn List.length map] in *.
        rewrite IH by (rewrite set_nth_length; lia).
        rewrite firstn_set_nth by lia.
        rewrite skipn_set_nth by lia.
        rewrite <- app_assoc. cbn [app].
        rewrite Nat.add_succ_r. reflexivity.
      * apply Nat.ltb_ge in Hlim.
        replace (limit - pos)%nat with O in * by lia.
        rewrite IH; replace (limit - pos)%nat with O by lia;
          cbn [firstn List.length] in *; [reflexivity | exact Hlen].
    + apply IH. exact Hlen.
Qed.

End SelectProperties.

(** *** Casts that do not wrap *)

Lemma to_size_t_small (z : Z) : 0 <= z < 2 ^ 64 -> to_size_t z = z.
Proof.
  intros H. unfold to_size_t, wrap_unsigned. apply Z.mod_small. exact H.
Qed.

Lemma to_ssize_t_small (z : Z) : - 2 ^ 63 <= z < 2 ^ 63 -> to_ssize_t z = z.
Proof.
  intros H. unfold to_ssize_t, wrap_signed.
  change (64 - 1) with 63.
  rewrite Z.mod_small; [lia|].
  change (2 ^ 64) with (2 * 2 ^ 63). lia.
Qed.

Section SelectCall.

Context {T : Type}.
Variable zero : T.
Variable add : T -> T -> T.
Variable is_zero : T -> bool.
Variable ltb : T -> T -> bool.
Variable api : dpctl_capi.
Variable queues_are_compatible : queue -> list queue -> bool.

(** On accepted arguments and [1 <= s <= N], with room for [s] indices,
    the wrapper submits the selection kernel on the five arrays, with [s]
    and the number of samples, instantiated with the C types of their type
    numbers. *)
Lemma py_select_samples_far_from_centroid_submits
    (q : queue) (deps : list event) (a1 a2 a3 a4 a5 : usm_ndarray)
    (s N M : nat) :
  select_arguments api queues_are_compatible q a1 a2 a3 a4 a5 N M ->
  (1 <= s <= N)%nat -> (s <= M)%nat ->
  exists dataT indT ht_ev,
    py_select_samples_far_from_centroid api queues_are_compatible
      (Z.of_nat s) a1 a2 a3 a4 a5 q deps =
    returned
      (ht_ev,
       kernel_event select_samples_far_from_centroid_kernel
         [targ_type dataT; targ_type indT] q
         [arg_scalar (Z.of_nat s); arg_scalar (Z.of_nat N); arg_scalar 64;
          arg_ptr (get_data dataT a1); arg_ptr (get_data dataT a2);
          arg_ptr (get_data indT a3); arg_ptr (get_data indT a4);
          arg_ptr (get_data indT a5)] deps) /\
    typenum_of api dataT = get_typenum a1 /\
    typenum_of api indT = get_typenum a3.
Proof.
  intros (H1 & H2 & H3 & H4 & H5 & HN & HM & Hc & Hq & Hd & T2 & Hi & T4 & T5)
         Hs HsM.
  unfold py_select_samples_far_from_centroid, get_ndim, get_shape.
  rewrite H1, H2, H3, H4, H5, Hc, Hq, T2, T4, T5.
  cbn [List.length nth Z.of_nat Pos.of_succ_nat Pos.succ].
  rewrite !Z.eqb_refl. cbn [negb orb].
  assert (H64 : 2 ^ 63 < 2 ^ 64) by reflexivity.
  rewrite to_size_t_small by lia.
  rewrite to_ssize_t_small by lia.
  replace (Z.of_nat s =? 0) with false by (symmetry; apply Z.eqb_neq; lia).
  replace (Z.of_nat N <? Z.of_nat s) with false
    by (symmetry; apply Z.ltb_ge; lia).
  replace (Z.of_nat M <? Z.of_nat s) with false
    by (symmetry; apply Z.ltb_ge; lia).
  unfold supported_data in Hd. unfold supported_index in Hi.
  destruct (get_typenum a1 =? UAR_FLOAT_ api) eqn:E1;
    destruct (get_typenum a1 =? UAR_DOUBLE_ api) eqn:E2;
    destruct (get_typenum a3 =? UAR_INT32_ api) eqn:E3;
    destruct (get_typenum a3 =? UAR_INT64_ api) eqn:E4;
    try discriminate;
    try apply Z.eqb_eq in E1; try apply Z.eqb_eq in E2;
    try apply Z.eqb_eq in E3; try apply Z.eqb_eq in E4;
    cbn [andb bind];
    do 3 eexists; (split; [reflexivity|]); split; symmetry; eassumption.
Qed.

(** The two passes of the kernel: the first [s] hits above the threshold,
    then hits equal to it as far as there is room below [s]. *)
Lemma select_samples_layout
    (s : nat) (ds : list T) (threshold : T) (old_idx : list Z) :
  let G := firstn s (hits (above ltb threshold) O ds) in
  let E := firstn (s - List.length G) (hits (equal_to ltb threshold) O ds) in
  (s <= List.length old_idx)%nat ->
  select_samples ltb s (List.length ds) ds threshold old_idx =
  {| sel_samples_idx :=
       map Z.of_nat (G ++ E) ++ skipn (List.length (G ++ E)) old_idx;
     sel_n_gt_threshold := Z.of_nat (List.length G);
     sel_n_eq_threshold := Z.of_nat (List.length E) |}.
Proof.
  intros G E Hold.
  assert (HG : (List.length G <= s)%nat)
    by (unfold G; rewrite length_firstn; lia).
  assert (HE : (List.length E <= s - List.length G)%nat)
    by (unfold E; rewrite length_firstn; lia).
  unfold select_samples. rewrite firstn_all.
  rewrite (select_pass_spec (above ltb threshold) s ds O old_idx O);
    rewrite Nat.sub_0_r; fold G; [|simpl; lia].
  cbn [fst snd firstn app plus].
  rewrite (select_pass_spec (equal_to ltb threshold) s ds O
             (map Z.of_nat G ++ skipn (List.length G) old_idx)
             (List.length G));
    fold E; rewrite ?length_app, ?length_map, ?length_skipn; [|lia].
  cbn [fst snd]. f_equal.
  - rewrite firstn_app, length_map, Nat.sub_diag. cbn [firstn].
    rewrite app_nil_r, firstn_all2 by (rewrite length_map; lia).
    rewrite skipn_app, length_map.
    rewrite skipn_all2 by (rewrite length_map; lia). cbn [app].
    rewrite skipn_skipn, map_app, <- app_assoc.
    do 2 f_equal. f_equal. lia.
  - f_equal. lia.
Qed.

(** With at least [s] distances not below the threshold the two passes
    write [s] indices. *)
Lemma select_samples_fills
    (s : nat) (ds : list T) (threshold : T) :
  let G := firstn s (hits (above ltb threshold) O ds) in
  let E := firstn (s - List.length G) (hits (equal_to ltb threshold) O ds) in
  (s <= count_above ltb threshold ds + count_equal ltb threshold ds)%nat ->
  List.length (G ++ E) = s.
Proof.
  cbv zeta. unfold count_above, count_equal. intros Hge.
  rewrite length_app, !length_firstn, !hits_length. lia.
Qed.

(** C4, as amended: for [1 <= s <= N], when at least [s] distances are
    greater than or equal to the threshold (as for the [s]-th largest
    distance), a [select_samples_far_from_centroid] call on accepted
    arguments leaves in the index array exactly [s] sample indices, all
    different, followed by the entries that were there: the indices of
    distances strictly greater than the threshold come before those of
    distances equal to it; the first count array holds the number of the
    former and the second the number of the latter, and the two add up to
    [s].  The distances and the threshold are unchanged. *)
Theorem select_samples_far_from_centroid_selects_exactly
    (q : queue) (deps : list event) (a1 a2 a3 a4 a5 : usm_ndarray)
    (s N M : nat) (ds : list T) (threshold : T) (old_idx : list Z)
    (old_gt old_eq : Z) (mem : typed_memory) :
  select_arguments api queues_are_compatible q a1 a2 a3 a4 a5 N M ->
  NoDup (map usm_data [a1; a2; a3; a4; a5]) ->
  (1 <= s <= N)%nat -> (s <= M)%nat ->
  holds_data mem a1 ds -> List.length ds = N ->
  holds_data mem a2 [threshold] ->
  holds_indices mem a3 old_idx -> List.length old_idx = M ->
  holds_indices mem a4 [old_gt] ->
  holds_indices mem a5 [old_eq] ->
  (s <= count_above ltb threshold ds + count_equal ltb threshold ds)%nat ->
  exists mem' out,
    buffers_after api zero add is_zero ltb
      (py_select_samples_far_from_centroid api queues_are_compatible
         (Z.of_nat s) a1 a2 a3 a4 a5 q deps) mem = Some mem' /\
    holds_indices mem' a3 (sel_samples_idx out) /\
    holds_indices mem' a4 [sel_n_gt_threshold out] /\
    holds_indices mem' a5 [sel_n_eq_threshold out] /\
    selects_exactly ltb s ds threshold old_idx out /\
    sel_n_gt_threshold out + sel_n_eq_threshold out = Z.of_nat s /\
    holds_data mem' a1 ds /\
    holds_data mem' a2 [threshold].
Proof.
  intros Hargs Hnd Hs HsM M1 Hds M2 M3 Hold M4 M5 Hge.
  destruct (py_select_samples_far_from_centroid_submits
              q deps a1 a2 a3 a4 a5 s N M Hargs Hs HsM)
    as (dataT & indT & ht_ev & Hret & HdT & HiT).
  destruct Hargs as (_ & _ & _ & _ & _ & _ & _ & _ & _ & _ & T2 & _ & T4 & T5).
  pose proof (select_samples_layout s ds threshold old_idx) as Hsel.
  pose proof (select_samples_fills s ds threshold Hge) as Hlen.
  cbv zeta in Hsel, Hlen.
  set (G := firstn s (hits (above ltb threshold) O ds)) in *.
  set (E := firstn (s - List.length G) (hits (equal_to ltb threshold) O ds))
    in *.
  rewrite Hlen in Hsel. specialize (Hsel ltac:(lia)).
  assert (HinG : forall i, In i G ->
            exists d, nth_error ds i = Some d /\ above ltb threshold d = true).
  { intros i Hi.
    assert (Hi' : In i (hits (above ltb threshold) O ds)).
    { rewrite <- (firstn_skipn s). apply in_or_app. now left. }
    apply hits_in in Hi'. rewrite Nat.sub_0_r in Hi'. exact (proj2 Hi'). }
  assert (HinE : forall i, In i E ->
            exists d, nth_error ds i = Some d /\
                      equal_to ltb threshold d = true).
  { intros i Hi.
    assert (Hi' : In i (hits (equal_to ltb threshold) O ds)).
    { rewrite <- (firstn_skipn (s - List.length G)). apply in_or_app.
      now left. }
    apply hits_in in Hi'. rewrite Nat.sub_0_r in Hi'. exact (proj2 Hi'). }
  assert (Hexact : selects_exactly ltb s ds threshold old_idx
                     {| sel_samples_idx :=
                          map Z.of_nat (G ++ E) ++ skipn s old_idx;
                        sel_n_gt_threshold := Z.of_nat (List.length G);
                        sel_n_eq_threshold := Z.of_nat (List.length E) |}).
  { unfold selects_exactly.
    cbn [sel_samples_idx sel_n_gt_threshold sel_n_eq_threshold].
    split; [|split].
    - rewrite length_app, length_map, length_skipn. lia.
    - rewrite skipn_app, length_map, Hlen, Nat.sub_diag.
      rewrite skipn_all2 by (rewrite length_map; lia). reflexivity.
    - exists G, E. repeat split; try assumption.
      + rewrite firstn_app, length_map, Hlen, Nat.sub_diag. cbn [firstn].
        rewrite app_nil_r. apply firstn_all2. rewrite length_map. lia.
      + apply NoDup_app.
        * apply NoDup_app_remove_r
            with (l' := skipn s (hits (above ltb threshold) O ds)).
          unfold G. rewrite firstn_skipn. apply hits_NoDup.
        * apply NoDup_app_remove_r
            with (l' := skipn (s - List.length G)
                          (hits (equal_to ltb threshold) O ds)).
          unfold E. rewrite firstn_skipn. apply hits_NoDup.
        * intros i Hi1 Hi2.
          destruct (HinG i Hi1) as [d [Hd Ha]].
          destruct (HinE i Hi2) as [d' [Hd' He]].
          assert (d' = d) by congruence. subst d'.
          unfold above, equal_to in *. rewrite Ha in He. discriminate. }
  unfold holds_data, holds_indices in *.
  rewrite Hret. cbn [buffers_after run_event].
  unfold exec_select_samples_far_from_centroid.
  cbn [forallb pointee get_data andb]. rewrite !ctype_eqb_refl. cbn [andb].
  unfold read_data, read_indices. cbn [address get_data pointee].
  rewrite M1, M2, M3, M4, M5. cbn [buf_typenum buf_contents].
  rewrite HdT, HiT, T2, T4, T5, !Z.eqb_refl.
  rewrite !Nat2Z.id, <- Hds, Hsel.
  cbn [sel_samples_idx sel_n_gt_threshold sel_n_eq_threshold].
  eexists.
  exists {| sel_samples_idx := map Z.of_nat (G ++ E) ++ skipn s old_idx;
            sel_n_gt_threshold := Z.of_nat (List.length G);
            sel_n_eq_threshold := Z.of_nat (List.length E) |}.
  split; [reflexivity|].
  cbn [sel_samples_idx sel_n_gt_threshold sel_n_eq_threshold].
  cbn [map] in Hnd.
  repeat match goal with
  | H : NoDup (_ :: _) |- _ =>
      let H1 := fresh in let H2 := fresh in
      apply NoDup_cons_iff in H; destruct H as [H1 H2]; cbn [In] in H1
  end.
  unfold overwrite. cbn [address get_data].
  repeat match goal with
  | |- context [usm_data ?x =? usm_data ?x] =>
      rewrite (Z.eqb_refl (usm_data x))
  | |- context [usm_data ?x =? usm_data ?y] =>
      replace (usm_data x =? usm_data y) with false
        by (symmetry; apply Z.eqb_neq; intuition congruence)
  end.
  rewrite M1, M2, M3, M4, M5. cbn [buf_typenum].
  rewrite ?T2, ?T4, ?T5.
  unfold store_prefix. cbn [List.length skipn app].
  rewrite length_app in Hlen.
  split; [reflexivity|]. split; [reflexivity|]. split; [reflexivity|].
  split; [exact Hexact|]. split; [lia|]. split; reflexivity.
Qed.

End SelectCall.

(** Five distances, threshold 7, three samples asked for. *)
Lemma select_samples_far_from_centroid_selects_exactly_witness :
  let a1 := array 1 [5] 11 in
  let a2 := array 2 [1] 11 in
  let a3 := array 3 [5] 5 in
  let a4 := array 4 [1] 5 in
  let a5 := array 5 [1] 5 in
  let ds := [4; 9; 7; 7; 1] in
  let old_idx := [-1; -1; -1; -1; -1] in
  let mem :=
    memory_of
      [(a1, data_of ds); (a2, data_of [7]); (a3, indices_of old_idx);
       (a4, indices_of [8]); (a5, indices_of [8])] in
  (select_arguments numpy_api same_queue 0 a1 a2 a3 a4 a5 5 5 /\
   NoDup (map usm_data [a1; a2; a3; a4; a5]) /\
   (3 <= count_above Z.ltb 7%Z ds + count_equal Z.ltb 7%Z ds)%nat) /\
  exists mem' out,
    buffers_after numpy_api 0 Z.add (Z.eqb 0) Z.ltb
      (py_select_samples_far_from_centroid numpy_api same_queue
         3 a1 a2 a3 a4 a5 0 []) mem = Some mem' /\
    holds_indices mem' a3 (sel_samples_idx out) /\
    holds_indices mem' a4 [sel_n_gt_threshold out] /\
    holds_indices mem' a5 [sel_n_eq_threshold out] /\
    selects_exactly Z.ltb 3%nat ds 7 old_idx out /\
    sel_n_gt_threshold out + sel_n_eq_threshold out = 3 /\
    holds_data mem' a1 ds /\
    holds_data mem' a2 [7].
Proof.
  cbv zeta.
  assert (Hargs : select_arguments numpy_api same_queue 0
                    (array 1 [5] 11) (array 2 [1] 11) (array 3 [5] 5)
                    (array 4 [1] 5) (array 5 [1] 5) 5 5)
    by (repeat split; reflexivity).
  assert (Hnd : NoDup (map usm_data
                         [array 1 [5] 11; array 2 [1] 11; array 3 [5] 5;
                          array 4 [1] 5; array 5 [1] 5])).
  { cbn. repeat constructor; cbn; intuition discriminate. }
  split.
  - split; [exact Hargs|]. split; [exact Hnd|]. vm_compute. lia.
  - apply (select_samples_far_from_centroid_selects_exactly
             0 Z.add (Z.eqb 0) Z.ltb numpy_api same_queue 0 []
             (array 1 [5] 11) (array 2 [1] 11) (array 3 [5] 5)
             (array 4 [1] 5) (array 5 [1] 5) 3 5 5
             [4; 9; 7; 7; 1] 7 [-1; -1; -1; -1; -1] 8 8
             (memory_of
                [(array 1 [5] 11, data_of [4; 9; 7; 7; 1]);
                 (array 2 [1] 11, data_of [7]);
                 (array 3 [5] 5, indices_of [-1; -1; -1; -1; -1]);
                 (array 4 [1] 5, indices_of [8]);
                 (array 5 [1] 5, indices_of [8])])
             Hargs Hnd);
      try reflexivity; vm_compute; lia.
Defined.

(** C4, as stated, fails: with one sample at distance 1 and the threshold
    5 the call is accepted for [n_selected = 1], yet the index array is
    left as it was and both count arrays hold zero, so that no index has
    been selected. *)
Lemma select_samples_far_from_centroid_threshold_too_high :
  let a1 := array 1 [1] 11 in
  let a2 := array 2 [1] 11 in
  let a3 := array 3 [1] 5 in
  let a4 := array 4 [1] 5 in
  let a5 := array 5 [1] 5 in
  let mem :=
    memory_of
      [(a1, data_of [1]); (a2, data_of [5]); (a3, indices_of [-1]);
       (a4, indices_of [8]); (a5, indices_of [8])] in
  select_arguments numpy_api same_queue 0 a1 a2 a3 a4 a5 1 1 /\
  NoDup (map usm_data [a1; a2; a3; a4; a5]) /\
  exists mem',
    buffers_after numpy_api 0 Z.add (Z.eqb 0) Z.ltb
      (py_select_samples_far_from_centroid numpy_api same_queue
         1 a1 a2 a3 a4 a5 0 []) mem = Some mem' /\
    holds_indices mem' a3 [-1] /\
    holds_indices mem' a4 [0] /\
    holds_indices mem' a5 [0] /\
    forall out,
      holds_indices mem' a3 (sel_samples_idx out) ->
      holds_indices mem' a4 [sel_n_gt_threshold out] ->
      holds_indices mem' a5 [sel_n_eq_threshold out] ->
      ~ selects_exactly Z.ltb 1%nat [1] 5 [-1] out /\
      sel_n_gt_threshold out + sel_n_eq_threshold out <> 1.
Proof.
  cbv zeta. split; [repeat split; reflexivity|].
  split; [cbn; repeat constructor; cbn; intuition discriminate|].
  eexists. split; [reflexivity|].
  split; [reflexivity|]. split; [reflexivity|]. split; [reflexivity|].
  intros [idx n_gt n_eq] _ H4 H5.
  unfold holds_indices in H4, H5.
  cbn [sel_n_gt_threshold sel_n_eq_threshold] in *.
  vm_compute in H4, H5.
  assert (Hgt : n_gt = 0) by congruence.
  assert (Heq : n_eq = 0) by congruence.
  split; [|lia].
  intros (_ & _ & greater & equal & _ & Hlen & _ & _ & _ & Hg & He).
  cbn [sel_n_gt_threshold sel_n_eq_threshold] in Hg, He.
  rewrite length_app in Hlen. lia.
Qed.

(** *** The shapes of [half_l2_norm_squared] *)

(** C8 (defect in the code): the comment above [py_half_l2_norm_squared]
    says that it evaluates [np.square(np.linalg.norm(X, axis=1)) / 2] and
    the docstring registered with the module says that it computes the
    row-wise half of the squared norm of [X]: one value for each row.  Yet
    for a matrix of two rows and three columns the call with an output
    vector of two entries, one for each row, is rejected with the
    dimension error, whereas the call with an output vector of three
    entries, the number of columns, is accepted and submits the kernel. *)
Theorem half_l2_norm_squared_rejects_row_count :
  let X := array 1 [2; 3] 11 in
  let y_rows := array 2 [2] 11 in
  let y_columns := array 2 [3] 11 in
  half_l2_norm_arguments numpy_api same_queue 0 X y_rows 2 3 2 /\
  py_half_l2_norm_squared numpy_api same_queue X y_rows 0 [] =
  value_error
    "Array dimensions of arguments are not consistent, X.shape[1] != y.shape[0]" /\
  exists ht_ev,
    py_half_l2_norm_squared numpy_api same_queue X y_columns 0 [] =
    returned
      (ht_ev,
       kernel_event half_l2_norm_kernel [targ_type float] 0
         [arg_scalar 2; arg_scalar 3; arg_scalar 32;
          arg_ptr (get_data float X); arg_ptr (get_data float y_columns)]
         []).
Proof.
  cbv zeta. split; [repeat split; reflexivity|].
  split; [reflexivity|]. eexists. reflexivity.
Qed.

(** *** Further properties of the wrappers *)

(** The answer of [all_c_contiguous] in terms of the arrays of the list. *)
Lemma all_c_contiguous_forall (args : list usm_ndarray) :
  all_c_contiguous args = true <->
  forall a, In a args -> is_c_contiguous a = true.
Proof.
  induction args as [|a rest IH]; simpl.
  - split; [intros _ a [] | reflexivity].
  - destruct (is_c_contiguous a) eqn:Ha.
    + rewrite IH. split.
      * intros H b [<-|Hb]; [exact Ha | apply H, Hb].
      * intros H b Hb. apply H. now right.
    + split; [discriminate|]. intros H.
      rewrite <- Ha. apply H. now left.
Qed.

(** X1: the loop of [all_c_contiguous] answers [true] exactly when every
    array of the list is C-contiguous; on the empty list it answers
    [true]. *)
Theorem all_c_contiguous_iff (args : list usm_ndarray) :
  all_c_contiguous args = true <->
  forall a, In a args -> is_c_contiguous a = true.
Proof.
  split.
  - intros H a Ha. revert H. induction args as [|b rest IH]; [destruct Ha|].
    simpl. destruct (is_c_contiguous b) eqn:Hb; [|discriminate].
    intros H. destruct Ha as [<-|Ha]; [exact Hb | exact (IH Ha H)].
  - intros H. induction args as [|b rest IH]; [reflexivity|].
    simpl. rewrite (H b (or_introl eq_refl)). apply IH.
    intros a Ha. apply H. now right.
Qed.

Section Rejections.

Variable api : dpctl_capi.
Variable queues_are_compatible : queue -> list queue -> bool.

(** X2: a call is rejected when one of its arrays does not have the rank
    the wrapper asks for, or when one of its scalar-like arrays does not
    have exactly one element. *)
Theorem wrong_rank_rejected
    (c : m.call) (q : queue) (deps : list event) :
  (exists a r, In (a, r) (rank_checked c) /\ get_ndim a <> r) \/
  (exists a, In a (size_checked c) /\ get_size a <> 1) ->
  rejected (m.invoke api queues_are_compatible c q deps).
Proof.
  intros H. destruct c; simpl in H; simpl m.invoke;
    [ unfold py_broadcast_divide
    | unfold py_half_l2_norm_squared
    | unfold py_reduce_centroids_data
    | unfold py_compute_threshold
    | unfold py_select_samples_far_from_centroid
    | unfold py_relocate_empty_clusters
    | unfold py_compute_centroid_shifts_squared_kernel
    | unfold py_compute_distances
    | unfold py_assignment ];
    reject_by ltac:(
      destruct H as [(a & r & Hin & Hne) | (a & Hin & Hne)];
      simpl in Hin;
      repeat match goal with
      | Hin : _ \/ _ |- _ => destruct Hin as [Hin|Hin]
      | Hin : (_, _) = (_, _) |- _ => injection Hin as <- <-
      | Hin : False |- _ => destruct Hin
      end; subst; congruence).
Qed.

(** X3: a call is rejected when two dimensions that the wrapper compares
    differ. *)
Theorem dimension_mismatch_rejected
    (c : m.call) (q : queue) (deps : list event) (x y : Z) :
  In (x, y) (dims_checked c) -> x <> y ->
  rejected (m.invoke api queues_are_compatible c q deps).
Proof.
  intros Hin Hne. destruct c; simpl in Hin; simpl m.invoke;
    try (destruct Hin; fail);
    [ unfold py_broadcast_divide
    | unfold py_half_l2_norm_squared
    | unfold py_reduce_centroids_data
    | unfold py_relocate_empty_clusters
    | unfold py_compute_centroid_shifts_squared_kernel
    | unfold py_compute_distances
    | unfold py_assignment ];
    reject_by ltac:(
      idtac;
      repeat match goal with
      | Hin : _ \/ _ |- _ => destruct Hin as [Hin|Hin]
      | Hin : (_, _) = (_, _) |- _ => injection Hin as <- <-
      | Hin : False |- _ => destruct Hin
      end; congruence).
Qed.

(** X4: a call is rejected when one of the arrays the wrapper hands to
    [all_c_contiguous] is not C-contiguous.  These are all the arrays of
    the call, except for [select_samples_far_from_centroid], where they
    are the distances and the index vector only. *)
Theorem not_contiguous_rejected
    (c : m.call) (q : queue) (deps : list event) (a : usm_ndarray) :
  In a (layout_checked c) -> is_c_contiguous a = false ->
  rejected (m.invoke api queues_are_compatible c q deps).
Proof.
  intros Hin Hnc. destruct c; simpl in Hin; simpl m.invoke;
    [ unfold py_broadcast_divide
    | unfold py_half_l2_norm_squared
    | unfold py_reduce_centroids_data
    | unfold py_compute_threshold
    | unfold py_select_samples_far_from_centroid
    | unfold py_relocate_empty_clusters
    | unfold py_compute_centroid_shifts_squared_kernel
    | unfold py_compute_distances
    | unfold py_assignment ];
    reject_by ltac:(
      idtac;
      match goal with
      | Hc : all_c_contiguous _ = true |- _ =>
          rewrite (proj1 (all_c_contiguous_forall _) Hc a) in Hnc;
          [discriminate | simpl; tauto]
      end).
Qed.

(** X5: a call is rejected when dpctl finds the execution queue
    incompatible with the queues of the arrays. *)
Theorem incompatible_queue_rejected
    (c : m.call) (q : queue) (deps : list event) :
  queues_are_compatible q (map get_queue (queue_checked c)) = false ->
  rejected (m.invoke api queues_are_compatible c q deps).
Proof.
  intros Hq. destruct c; simpl in Hq; simpl m.invoke;
    [ unfold py_broadcast_divide
    | unfold py_half_l2_norm_squared
    | unfold py_reduce_centroids_data
    | unfold py_compute_threshold
    | unfold py_select_samples_far_from_centroid
    | unfold py_relocate_empty_clusters
    | unfold py_compute_centroid_shifts_squared_kernel
    | unfold py_compute_distances
    | unfold py_assignment ];
    reject_by ltac:(congruence).
Qed.

(** X6: a call is rejected when two of its floating-point arrays, or two
    of its index arrays, have different type numbers; for
    [compute_threshold] this holds for every [topk], zero included. *)
Theorem type_mismatch_rejected
    (c : m.call) (q : queue) (deps : list event) (a b : usm_ndarray) :
  (In a (m.data_arrays c) /\ In b (m.data_arrays c)) \/
  (In a (m.index_arrays c) /\ In b (m.index_arrays c)) ->
  get_typenum a <> get_typenum b ->
  rejected (m.invoke api queues_are_compatible c q deps).
Proof.
  intros Hin Hne. destruct c; simpl in Hin; simpl m.invoke;
    [ unfold py_broadcast_divide
    | unfold py_half_l2_norm_squared
    | unfold py_reduce_centroids_data
    | unfold py_compute_threshold
    | unfold py_select_samples_far_from_centroid
    | unfold py_relocate_empty_clusters
    | unfold py_compute_centroid_shifts_squared_kernel
    | unfold py_compute_distances
    | unfold py_assignment ];
    reject_by ltac:(
      destruct Hin as [[Ha Hb]|[Ha Hb]];
      repeat match goal with
      | Hin : _ \/ _ |- _ => destruct Hin as [Hin|Hin]
      | Hin : False |- _ => destruct Hin
      end; subst; congruence).
Qed.

End Rejections.

(** *** What a returned call guarantees *)

Lemma rank1_shape (a : usm_ndarray) :
  get_ndim a = 1 -> shape a = [get_shape a 0].
Proof.
  unfold get_ndim, get_shape.
  destruct (shape a) as [|x [|y l]]; cbn [List.length nth]; intros H;
    try reflexivity; lia.
Qed.

Lemma rank2_shape (a : usm_ndarray) :
  get_ndim a = 2 -> shape a = [get_shape a 0; get_shape a 1].
Proof.
  unfold get_ndim, get_shape.
  destruct (shape a) as [|x [|y [|z l]]]; cbn [List.length nth]; intros H;
    try reflexivity; lia.
Qed.

Lemma rank3_shape (a : usm_ndarray) :
  get_ndim a = 3 -> shape a = [get_shape a 0; get_shape a 1; get_shape a 2].
Proof.
  unfold get_ndim, get_shape.
  destruct (shape a) as [|x [|y [|z [|w l]]]]; cbn [List.length nth];
    intros H; try reflexivity; lia.
Qed.

Section Returned.

Variable api : dpctl_capi.
Variable queues_are_compatible : queue -> list queue -> bool.

(** X7: whenever a call returns after a submission, its second event is
    the event of the kernel of that operation, submitted to the queue of
    the call with the dependencies of the caller, and its first event is
    the keep-alive host task on the same queue that depends on exactly
    that kernel event. *)
Theorem returned_events_chained
    (c : m.call) (q : queue) (deps : list event) (r : event * event) :
  m.invoke api queues_are_compatible c q deps = returned r ->
  m.is_compute_threshold_topk0 c = false ->
  (exists targs args,
     snd r = kernel_event (kernel_of c) targs q args deps) /\
  fst r = keep_args_alive q (kept_alive (returned r)) [snd r].
Proof.
  intros H Hk. destruct c; simpl in H, Hk;
    [ unfold py_broadcast_divide in H
    | unfold py_half_l2_norm_squared in H
    | unfold py_reduce_centroids_data in H
    | unfold py_compute_threshold in H
    | unfold py_select_samples_far_from_centroid in H
    | unfold py_relocate_empty_clusters in H
    | unfold py_compute_centroid_shifts_squared_kernel in H
    | unfold py_compute_distances in H
    | unfold py_assignment in H ];
    returned_checks H; try rewrite Hk in H; returned_dispatch H;
    (split; [do 2 eexists; reflexivity | reflexivity]).
Qed.

(** X8: for every operation other than [compute_threshold], a call that
    returns has handed each of its arrays to the kernel, in the order of
    the signature, as a pointer to the C type of the array's own type
    number. *)
Theorem arrays_passed_with_their_own_type
    (c : m.call) (q : queue) (deps : list event) (r : event * event) :
  m.invoke api queues_are_compatible c q deps = returned r ->
  is_compute_threshold c = false ->
  map address (pointer_args (snd r)) = map usm_data (m.array_args c) /\
  Forall2 (fun p a => typenum_of api (pointee p) = get_typenum a)
          (pointer_args (snd r)) (m.array_args c).
Proof.
  intros H Hk. destruct c; simpl in H, Hk; try discriminate Hk;
    [ unfold py_broadcast_divide in H
    | unfold py_half_l2_norm_squared in H
    | unfold py_reduce_centroids_data in H
    | unfold py_select_samples_far_from_centroid in H
    | unfold py_relocate_empty_clusters in H
    | unfold py_compute_centroid_shifts_squared_kernel in H
    | unfold py_compute_distances in H
    | unfold py_assignment in H ];
    invert_returned H;
    (split; [reflexivity | repeat constructor; simpl; congruence]).
Qed.

End Returned.

(** A cast to an index type keeps a number that fits in 31 bits. *)
Lemma static_cast_small (T : ctype) (z : Z) :
  T = int32_t \/ T = int64_t -> 0 <= z < 2 ^ 31 -> static_cast T z = z.
Proof.
  intros [-> | ->] Hz; unfold static_cast, wrap_signed.
  - change (2 ^ (32 - 1)) with (2 ^ 31). change (2 ^ 32) with (2 * 2 ^ 31).
    rewrite Z.mod_small; lia.
  - change (2 ^ 31) with 2147483648 in Hz.
    change (2 ^ (64 - 1)) with 9223372036854775808.
    change (2 ^ 64) with 18446744073709551616.
    rewrite Z.mod_small; lia.
Qed.

Section ReturnedShapes.

Variable api : dpctl_capi.
Variable queues_are_compatible : queue -> list queue -> bool.

(** X9: a [broadcast_divide] call that returns was given a matrix of some
    [R x Cn] and a vector of [Cn] entries, and the kernel got [R], [Cn]
    and the work-group size 32. *)
Theorem py_broadcast_divide_returned_shapes
    (X y : usm_ndarray) (q : queue) (deps : list event) (r : event * event) :
  py_broadcast_divide api queues_are_compatible X y q deps = returned r ->
  exists R Cn,
    shape X = [R; Cn] /\ shape y = [Cn] /\
    scalar_args (snd r) = [R; Cn; 32].
Proof.
  intros H. unfold py_broadcast_divide in H. invert_returned H;
    exists (get_shape X 0), (get_shape X 1);
    shapes_by_rank rank1_shape rank2_shape rank3_shape;
    repeat split; congruence.
Qed.

(** X10: a [reduce_centroids_data] call that returns was given arrays of
    the shapes [C x K], [C x F x K], [K], [F x K] and [K] for common [C],
    [F] and [K], and the kernel got [C], [F], [K] and the work-group size
    256. *)
Theorem py_reduce_centroids_data_returned_shapes
    (a1 a2 a3 a4 a5 a6 : usm_ndarray) (q : queue) (deps : list event)
    (r : event * event) :
  py_reduce_centroids_data api queues_are_compatible
    a1 a2 a3 a4 a5 a6 q deps = returned r ->
  exists C F K,
    shape a1 = [C; K] /\ shape a2 = [C; F; K] /\ shape a3 = [K] /\
    shape a4 = [F; K] /\ shape a5 = [K] /\ get_size a6 = 1 /\
    scalar_args (snd r) = [C; F; K; 256].
Proof.
  intros H. unfold py_reduce_centroids_data in H. invert_returned H;
    exists (get_shape a1 0), (get_shape a2 1), (get_shape a1 1);
    shapes_by_rank rank1_shape rank2_shape rank3_shape;
    repeat split; try assumption; congruence.
Qed.

(** X11: a [relocate_empty_clusters] call that returns was given a
    non-zero [n_empty_clusters] and arrays of the shapes [F x N], [N],
    [N], [K], [N], [F x K], [K] and [N] for common [F], [N] and [K]; the
    kernel got [N], [F], the cast of [K] to the index type, the work-group
    size 64 and [n_empty_clusters], and the cast leaves [K] as it is
    whenever [K] is below [2^31]. *)
Theorem py_relocate_empty_clusters_returned_shapes
    (n_empty_clusters : Z) (a1 a2 a3 a4 a5 a6 a7 a8 : usm_ndarray)
    (q : queue) (deps : list event) (r : event * event) :
  py_relocate_empty_clusters api queues_are_compatible
    n_empty_clusters a1 a2 a3 a4 a5 a6 a7 a8 q deps = returned r ->
  n_empty_clusters <> 0 /\
  exists F N K,
    shape a1 = [F; N] /\ shape a2 = [N] /\ shape a3 = [N] /\
    shape a4 = [K] /\ shape a5 = [N] /\ shape a6 = [F; K] /\
    shape a7 = [K] /\ shape a8 = [N] /\
    (exists indT,
       typenum_of api indT = get_typenum a3 /\
       (indT = int32_t \/ indT = int64_t) /\
       scalar_args (snd r) =
         [N; F; static_cast indT K; 64; n_empty_clusters]) /\
    (0 <= K < 2 ^ 31 ->
     scalar_args (snd r) = [N; F; K; 64; n_empty_clusters]).
Proof.
  intros H. unfold py_relocate_empty_clusters in H. invert_returned H;
    (split; [apply Z.eqb_neq; assumption|]);
    exists (get_shape a1 0), (get_shape a1 1), (get_shape a4 0);
    shapes_by_rank rank1_shape rank2_shape rank3_shape;
    (do 8 (split; [congruence|]));
    (split;
     [ match goal with
       | |- context [kernel_event relocate_empty_clusters
                       [targ_type _; targ_type ?I]] => exists I
       end;
       split; [simpl; congruence | split; [auto | reflexivity]]
     | intros HK; cbn [snd scalar_args flat_map app];
       try change (wrap_signed 32) with (static_cast int32_t);
       try change (wrap_signed 64) with (static_cast int64_t);
       rewrite static_cast_small by (auto; lia); reflexivity ]).
Qed.

(** X12: a [compute_centroid_shifts_squared] call that returns was given
    two matrices of one shape [F x K] and a vector of [K] entries, and the
    kernel got [F], [K] and the work-group size 128. *)
Theorem py_compute_centroid_shifts_squared_returned_shapes
    (a1 a2 a3 : usm_ndarray) (q : queue) (deps : list event)
    (r : event * event) :
  py_compute_centroid_shifts_squared_kernel api queues_are_compatible
    a1 a2 a3 q deps = returned r ->
  exists F K,
    shape a1 = [F; K] /\ shape a2 = [F; K] /\ shape a3 = [K] /\
    scalar_args (snd r) = [F; K; 128].
Proof.
  intros H. unfold py_compute_centroid_shifts_squared_kernel in H.
  invert_returned H;
    exists (get_shape a1 0), (get_shape a1 1);
    shapes_by_rank rank1_shape rank2_shape rank3_shape;
    repeat split; congruence.
Qed.

(** X13: a [compute_centroid_to_sample_distances] call that returns was
    given arrays of the shapes [F x N], [F x K] and [K x N]; the kernel got
    [N], [F], [K], then the window height and then the work-group size,
    whatever these two are: they are not checked, and they reach the
    kernel in the opposite order of the Python signature. *)
Theorem py_compute_distances_returned_shapes
    (a1 a2 a3 : usm_ndarray) (work_group_size centroids_window_height : Z)
    (q : queue) (deps : list event) (r : event * event) :
  py_compute_distances api queues_are_compatible
    a1 a2 a3 work_group_size centroids_window_height q deps = returned r ->
  (exists F N K,
     shape a1 = [F; N] /\ shape a2 = [F; K] /\ shape a3 = [K; N] /\
     scalar_args (snd r) =
       [N; F; K; centroids_window_height; work_group_size]) /\
  forall wg h,
    is_error (py_compute_distances api queues_are_compatible
                a1 a2 a3 wg h q deps) = false.
Proof.
  intros H. split.
  - unfold py_compute_distances in H. invert_returned H;
      exists (get_shape a1 0), (get_shape a1 1), (get_shape a3 0);
      shapes_by_rank rank1_shape rank2_shape rank3_shape;
      repeat split; congruence.
  - intros wg h. unfold py_compute_distances in H |- *.
    returned_checks H.
    repeat match goal with
    | Hc : ?c = false |- context [?c] => rewrite Hc
    | Hc : ?c = true |- context [?c] => rewrite Hc
    | Hc : ?x = ?y |- context [?x =? ?y] => rewrite Hc, Z.eqb_refl
    end.
    cbn [negb orb].
    unfold bind in H |- *.
    destruct (get_typenum a1 =? UAR_FLOAT_ api); [reflexivity|].
    destruct (get_typenum a1 =? UAR_DOUBLE_ api); [reflexivity|].
    discriminate H.
Qed.

(** X14: an [assignment] call that returns was given arrays of the shapes
    [F x N], [F x K], [K] and [N]; the kernel got [N], [F], [K], then the
    window height and then the work-group size, whatever these two are. *)
Theorem py_assignment_returned_shapes
    (a1 a2 a3 a4 : usm_ndarray) (centroids_window_height work_group_size : Z)
    (q : queue) (deps : list event) (r : event * event) :
  py_assignment api queues_are_compatible
    a1 a2 a3 a4 centroids_window_height work_group_size q deps
    = returned r ->
  exists F N K,
    shape a1 = [F; N] /\ shape a2 = [F; K] /\ shape a3 = [K] /\
    shape a4 = [N] /\
    scalar_args (snd r) =
      [N; F; K; centroids_window_height; work_group_size].
Proof.
  intros H. unfold py_assignment in H. invert_returned H;
    exists (get_shape a1 0), (get_shape a1 1), (get_shape a3 0);
    shapes_by_rank rank1_shape rank2_shape rank3_shape;
    repeat split; congruence.
Qed.

End ReturnedShapes.

Section SelectChecks.

Variable api : dpctl_capi.
Variable queues_are_compatible : queue -> list queue -> bool.

(** X15: for [n_selected] a [size_t] and a sample count a non-negative
    [py::ssize_t], a [select_samples_far_from_centroid] call that returns
    has [1 <= n_selected <= n_samples] and an index vector of at least
    [n_selected] entries, so that the [n_selected] indices fit in it; the
    kernel got [n_selected], the sample count and the work-group size 64. *)
Theorem py_select_samples_far_from_centroid_returned_bounds
    (n_selected : Z) (a1 a2 a3 a4 a5 : usm_ndarray)
    (q : queue) (deps : list event) (r : event * event) :
  0 <= n_selected < 2 ^ 64 ->
  0 <= get_shape a1 0 < 2 ^ 63 ->
  py_select_samples_far_from_centroid api queues_are_compatible
    n_selected a1 a2 a3 a4 a5 q deps = returned r ->
  1 <= n_selected <= get_shape a1 0 /\
  n_selected <= get_shape a3 0 /\
  shape a1 = [get_shape a1 0] /\
  shape a3 = [get_shape a3 0] /\
  scalar_args (snd r) = [n_selected; get_shape a1 0; 64].
Proof.
  intros Hn HN H. unfold py_select_samples_far_from_centroid in H.
  assert (H64 : 2 ^ 63 < 2 ^ 64) by reflexivity.
  rewrite to_size_t_small in H by lia.
  invert_returned H;
    match goal with
    | H0 : (n_selected =? 0) = false,
      H1 : (get_shape a1 0 <? n_selected) = false,
      H2 : (get_shape a3 0 <? to_ssize_t n_selected) = false |- _ =>
        apply Z.eqb_neq in H0; apply Z.ltb_ge in H1;
        rewrite to_ssize_t_small in H2 by lia; apply Z.ltb_ge in H2
    end;
    (split; [lia|]); (split; [lia|]);
    (split; [apply rank1_shape; assumption|]);
    (split; [apply rank1_shape; assumption|]); reflexivity.
Qed.

(** X16: [py_select_samples_far_from_centroid] never looks at the
    contiguity of the threshold and of the two counters: whether the call
    throws, and with which message, does not depend on their flags. *)
Theorem py_select_samples_far_from_centroid_contiguity_not_checked
    (n_selected : Z) (a1 a2 a3 a4 a5 : usm_ndarray)
    (q : queue) (deps : list event) (b2 b4 b5 : bool) (msg : string) :
  py_select_samples_far_from_centroid api queues_are_compatible
    n_selected a1 (with_contiguity b2 a2) a3
    (with_contiguity b4 a4) (with_contiguity b5 a5) q deps
    = value_error msg <->
  py_select_samples_far_from_centroid api queues_are_compatible
    n_selected a1 a2 a3 a4 a5 q deps = value_error msg.
Proof.
  unfold py_select_samples_far_from_centroid, get_size, get_typenum,
    get_queue, with_contiguity.
  cbn [shape typenum alloc_queue].
  repeat match goal with
  | |- context [if ?c then value_error _ else _] =>
      destruct c; [reflexivity|]
  end.
  unfold bind.
  repeat match goal with
  | |- context [if ?c then _ else _] => destruct c
  end; split; intros H; (discriminate H || exact H).
Qed.

End SelectChecks.

(** X17: [py_half_l2_norm_squared] validates its arguments exactly as
    [py_broadcast_divide] does: on the same arguments the two throw the
    same error or both return. *)
Theorem py_half_l2_norm_squared_validates_as_py_broadcast_divide
    (api : dpctl_capi) (queues_are_compatible : queue -> list queue -> bool)
    (X y : usm_ndarray) (q : queue) (deps : list event) (msg : string) :
  py_half_l2_norm_squared api queues_are_compatible X y q deps
    = value_error msg <->
  py_broadcast_divide api queues_are_compatible X y q deps
    = value_error msg.
Proof.
  unfold py_half_l2_norm_squared, py_broadcast_divide.
  repeat match goal with
  | |- context [if ?c then value_error _ else _] =>
      destruct c; [reflexivity|]
  end.
  unfold bind.
  repeat match goal with
  | |- context [if ?c then _ else _] => destruct c
  end; split; intros H; (discriminate H || exact H).
Qed.

(** *** Accepted calls *)

Lemma supported_data_iff (api : dpctl_capi) (t : Z) :
  supported_data api t = true <-> t = UAR_FLOAT_ api \/ t = UAR_DOUBLE_ api.
Proof.
  unfold supported_data. rewrite orb_true_iff, !Z.eqb_eq. reflexivity.
Qed.

Lemma supported_index_iff (api : dpctl_capi) (t : Z) :
  supported_index api t = true <-> t = UAR_INT32_ api \/ t = UAR_INT64_ api.
Proof.
  unfold supported_index. rewrite orb_true_iff, !Z.eqb_eq. reflexivity.
Qed.

Section Accepted.

Variable api : dpctl_capi.
Variable queues_are_compatible : queue -> list queue -> bool.

(** A call that returns is well formed. *)
Lemma returned_well_formed
    (c : m.call) (q : queue) (deps : list event) (r : event * event) :
  m.invoke api queues_are_compatible c q deps = returned r ->
  well_formed api queues_are_compatible q c.
Proof.
  intros H. unfold well_formed.
  destruct c; simpl in H;
    [ unfold py_broadcast_divide in H
    | unfold py_half_l2_norm_squared in H
    | unfold py_reduce_centroids_data in H
    | unfold py_compute_threshold in H
    | unfold py_select_samples_far_from_centroid in H
    | unfold py_relocate_empty_clusters in H
    | unfold py_compute_centroid_shifts_squared_kernel in H
    | unfold py_compute_distances in H
    | unfold py_assignment in H ];
    returned_checks H;
    try (destruct (topk =? 0) eqn:Htopk);
    returned_dispatch H; dispatch_facts;
    repeat match goal with
    | Hc : (_ =? 0) = false |- _ => apply Z.eqb_neq in Hc
    | Hc : (_ <? _) = false |- _ => apply Z.ltb_ge in Hc
    end;
    cbn [rank_checked size_checked dims_checked layout_checked
         queue_checked m.array_args m.data_arrays m.index_arrays
         scalars_checked m.is_compute_threshold_topk0 map];
    repeat match goal with
    | |- _ /\ _ => split
    | |- Forall (fun a => is_c_contiguous a = true) _ =>
        apply Forall_forall, all_c_contiguous_forall; assumption
    | |- Forall _ _ => repeat constructor; simpl; congruence
    | |- _ = true => assumption
    | |- True => exact I
    | |- _ <> _ => assumption
    | |- _ <= _ => assumption
    | |- _ -> has_unsupported_type _ _ = false =>
        intros Hk0; try congruence;
        try (exfalso; apply Z.eqb_neq in Hk0; congruence);
        unfold has_unsupported_type;
        cbn [m.data_arrays m.index_arrays existsb orb];
        repeat match goal with
        | |- context [supported_data api ?t] =>
            replace (supported_data api t) with true
              by (symmetry; apply supported_data_iff;
                  first [left; congruence | right; congruence])
        | |- context [supported_index api ?t] =>
            replace (supported_index api t) with true
              by (symmetry; apply supported_index_iff;
                  first [left; congruence | right; congruence])
        end; reflexivity
    end.
Qed.

End Accepted.

Section AcceptedIff.

Variable api : dpctl_capi.
Variable queues_are_compatible : queue -> list queue -> bool.

(** A well-formed call returns. *)
Lemma well_formed_returns
    (c : m.call) (q : queue) (deps : list event) :
  well_formed api queues_are_compatible q c ->
  exists r, m.invoke api queues_are_compatible c q deps = returned r.
Proof.
  intros (Hrank & Hsize & Hdims & Hlay & Hq & Hdata & Hidx & Hsup & Hsc).
  destruct c;
    cbn [rank_checked size_checked dims_checked layout_checked
         queue_checked m.array_args m.data_arrays m.index_arrays
         scalars_checked m.is_compute_threshold_topk0 map] in *;
    forall_facts; cbn [fst snd] in *;
    try (destruct Hsc as (Hs1 & Hs2 & Hs3));
    simpl m.invoke;
    [ unfold py_broadcast_divide
    | unfold py_half_l2_norm_squared
    | unfold py_reduce_centroids_data
    | unfold py_compute_threshold
    | unfold py_select_samples_far_from_centroid
    | unfold py_relocate_empty_clusters
    | unfold py_compute_centroid_shifts_squared_kernel
    | unfold py_compute_distances
    | unfold py_assignment ];
    contiguous_true; rewrite Hq; tests_true; tests_false;
    cbn [negb orb];
    try (destruct (topk =? 0) eqn:Htopk; [eexists; reflexivity|]);
    specialize (Hsup eq_refl);
    unfold has_unsupported_type in Hsup;
    cbn [m.data_arrays m.index_arrays existsb] in Hsup;
    revert_supported; unfold bind;
    repeat match goal with
    | |- context [?x =? ?y] => destruct (x =? y) eqn:?; cbn [orb andb]
    end;
    intros; try discriminate; eexists; reflexivity.
Qed.

(** X18: a call returns exactly when it is well formed: every checked
    rank, size and pair of dimensions is right, every array handed to
    [all_c_contiguous] is C-contiguous, the queues are compatible, the
    floating-point arrays share one type number and so do the index
    arrays, these type numbers are supported (not asked of
    [compute_threshold] with [topk = 0]), and the scalar arguments are in
    range.  The order of the checks in the source only decides which error
    is reported. *)
Theorem returns_iff_well_formed
    (c : m.call) (q : queue) (deps : list event) :
  (exists r, m.invoke api queues_are_compatible c q deps = returned r) <->
  well_formed api queues_are_compatible q c.
Proof.
  split.
  - intros [r H]. exact (returned_well_formed _ _ _ _ _ _ H).
  - apply well_formed_returns.
Qed.

End AcceptedIff.

(** *** Keep-alive lists of all operations *)

(** X19: whenever a call returns after a submission, the arrays its
    keep-alive event holds are the array arguments of the call, in the
    order of the signature; for [relocate_empty_clusters] they are all but
    the last one. *)
Theorem keep_alive_holds_arguments
    (api : dpctl_capi) (queues_are_compatible : queue -> list queue -> bool)
    (c : m.call) (q : queue) (deps : list event) (r : event * event) :
  m.invoke api queues_are_compatible c q deps = returned r ->
  m.is_compute_threshold_topk0 c = false ->
  kept_alive (returned r) =
    match c with
    | m.relocate_empty_clusters _ _ _ _ _ _ _ _ _ =>
        removelast (m.array_args c)
    | _ => m.array_args c
    end.
Proof.
  intros H Hk.
  destruct c;
    try (apply (kept_alive_all_arguments api queues_are_compatible
                  _ q deps r H Hk); intros; discriminate).
  simpl in H.
  rewrite (kept_alive_relocate_empty_clusters _ _ _ _ _ _ _ _ _ _ _ _ _ _ H).
  reflexivity.
Qed.

(** *** Instances *)

Lemma wrong_rank_rejected_witness :
  let c := m.broadcast_divide (array 1 [2; 3; 4] 11) (array 2 [4] 11) in
  (exists a r, In (a, r) (rank_checked c) /\ get_ndim a <> r) /\
  rejected (m.invoke numpy_api same_queue c 0 []).
Proof.
  cbv zeta.
  assert (H : exists a r,
             In (a, r) (rank_checked
                          (m.broadcast_divide (array 1 [2; 3; 4] 11)
                             (array 2 [4] 11))) /\ get_ndim a <> r).
  { exists (array 1 [2; 3; 4] 11), 2. split; [left; reflexivity|].
    vm_compute. discriminate. }
  split; [exact H|].
  apply (wrong_rank_rejected numpy_api same_queue). left. exact H.
Defined.

Lemma dimension_mismatch_rejected_witness :
  let c := m.compute_centroid_shifts_squared
             (array 1 [2; 3] 11) (array 2 [2; 4] 11) (array 3 [3] 11) in
  In (3, 4) (dims_checked c) /\
  rejected (m.invoke numpy_api same_queue c 0 []).
Proof.
  cbv zeta.
  assert (H : In (3, 4)
                (dims_checked
                   (m.compute_centroid_shifts_squared
                      (array 1 [2; 3] 11) (array 2 [2; 4] 11)
                      (array 3 [3] 11))))
    by (right; left; reflexivity).
  split; [exact H|].
  apply (dimension_mismatch_rejected numpy_api same_queue _ 0 [] 3 4 H).
  discriminate.
Defined.

Lemma not_contiguous_rejected_witness :
  let y := with_contiguity false (array 2 [3] 11) in
  let c := m.broadcast_divide (array 1 [2; 3] 11) y in
  (In y (layout_checked c) /\ is_c_contiguous y = false) /\
  rejected (m.invoke numpy_api same_queue c 0 []).
Proof.
  cbv zeta.
  assert (H : In (with_contiguity false (array 2 [3] 11))
                (layout_checked
                   (m.broadcast_divide (array 1 [2; 3] 11)
                      (with_contiguity false (array 2 [3] 11)))))
    by (right; left; reflexivity).
  split; [split; [exact H | reflexivity]|].
  apply (not_contiguous_rejected numpy_api same_queue _ 0 [] _ H).
  reflexivity.
Defined.

Lemma incompatible_queue_rejected_witness :
  let c := m.compute_threshold (array 1 [2] 11) 1 (array 2 [1] 11) in
  same_queue 7 (map get_queue (queue_checked c)) = false /\
  rejected (m.invoke numpy_api same_queue c 7 []).
Proof.
  cbv zeta. split; [reflexivity|].
  apply (incompatible_queue_rejected numpy_api same_queue). reflexivity.
Defined.

Lemma type_mismatch_rejected_witness :
  let data := array 1 [2] 11 in
  let threshold := array 2 [1] 12 in
  let c := m.compute_threshold data 0 threshold in
  (In data (m.data_arrays c) /\ In threshold (m.data_arrays c) /\
   get_typenum data <> get_typenum threshold) /\
  rejected (m.invoke numpy_api same_queue c 0 []).
Proof.
  cbv zeta.
  assert (H1 : In (array 1 [2] 11)
                 (m.data_arrays
                    (m.compute_threshold (array 1 [2] 11) 0
                       (array 2 [1] 12))))
    by (left; reflexivity).
  assert (H2 : In (array 2 [1] 12)
                 (m.data_arrays
                    (m.compute_threshold (array 1 [2] 11) 0
                       (array 2 [1] 12))))
    by (right; left; reflexivity).
  assert (H3 : get_typenum (array 1 [2] 11) <> get_typenum (array 2 [1] 12))
    by (vm_compute; discriminate).
  split; [repeat split; assumption|].
  apply (type_mismatch_rejected numpy_api same_queue _ 0 []
           (array 1 [2] 11) (array 2 [1] 12)); [left; split; assumption|].
  exact H3.
Defined.

Lemma returned_events_chained_witness :
  exists r,
    m.invoke numpy_api same_queue sample_assignment 0 [default_event]
      = returned r /\
    (exists targs args,
       snd r = kernel_event assignment targs 0 args [default_event]) /\
    fst r = keep_args_alive 0 (kept_alive (returned r)) [snd r].
Proof.
  eexists. split; [reflexivity|].
  apply (returned_events_chained numpy_api same_queue sample_assignment
           0 [default_event]); reflexivity.
Defined.

Lemma arrays_passed_with_their_own_type_witness :
  exists r,
    m.invoke numpy_api same_queue sample_assignment 0 [] = returned r /\
    map pointee (pointer_args (snd r)) = [double; double; double; int64_t] /\
    map address (pointer_args (snd r)) =
      map usm_data (m.array_args sample_assignment) /\
    Forall2 (fun p a => typenum_of numpy_api (pointee p) = get_typenum a)
            (pointer_args (snd r)) (m.array_args sample_assignment).
Proof.
  eexists. split; [reflexivity|]. split; [reflexivity|].
  apply (arrays_passed_with_their_own_type numpy_api same_queue
           sample_assignment 0 []); reflexivity.
Defined.

Lemma keep_alive_holds_arguments_witness :
  exists r,
    m.invoke numpy_api same_queue sample_relocate 0 [] = returned r /\
    kept_alive (returned r) = removelast (m.array_args sample_relocate).
Proof.
  eexists. split; [reflexivity|].
  apply (keep_alive_holds_arguments numpy_api same_queue sample_relocate
           0 []); reflexivity.
Defined.

Lemma py_broadcast_divide_returned_shapes_witness :
  let X := array 1 [2; 3] 11 in
  let y := array 2 [3] 11 in
  exists r,
    py_broadcast_divide numpy_api same_queue X y 0 [] = returned r /\
    exists R Cn,
      shape X = [R; Cn] /\ shape y = [Cn] /\
      scalar_args (snd r) = [R; Cn; 32].
Proof.
  cbv zeta. eexists. split; [reflexivity|].
  apply (py_broadcast_divide_returned_shapes numpy_api same_queue
           (array 1 [2; 3] 11) (array 2 [3] 11) 0 []).
  reflexivity.
Defined.

Lemma py_reduce_centroids_data_returned_shapes_witness :
  let a1 := array 1 [2; 3] 11 in
  let a2 := array 2 [2; 2; 3] 11 in
  let a3 := array 3 [3] 11 in
  let a4 := array 4 [2; 3] 11 in
  let a5 := array 5 [3] 5 in
  let a6 := array 6 [1] 5 in
  exists r,
    py_reduce_centroids_data numpy_api same_queue a1 a2 a3 a4 a5 a6 0 []
      = returned r /\
    exists C F K,
      shape a1 = [C; K] /\ shape a2 = [C; F; K] /\ shape a3 = [K] /\
      shape a4 = [F; K] /\ shape a5 = [K] /\ get_size a6 = 1 /\
      scalar_args (snd r) = [C; F; K; 256].
Proof.
  cbv zeta. eexists. split; [reflexivity|].
  apply (py_reduce_centroids_data_returned_shapes numpy_api same_queue
           (array 1 [2; 3] 11) (array 2 [2; 2; 3] 11) (array 3 [3] 11)
           (array 4 [2; 3] 11) (array 5 [3] 5) (array 6 [1] 5) 0 []).
  reflexivity.
Defined.

Lemma py_relocate_empty_clusters_returned_shapes_witness :
  exists r,
    m.invoke numpy_api same_queue sample_relocate 0 [] = returned r /\
    scalar_args (snd r) = [4; 2; 2; 64; 1].
Proof.
  eexists. split; [reflexivity|].
  destruct (py_relocate_empty_clusters_returned_shapes numpy_api same_queue
              1 (array 1 [2; 4] 11) (array 2 [4] 11) (array 3 [4] 5)
              (array 4 [2] 5) (array 5 [4] 11) (array 6 [2; 2] 11)
              (array 7 [2] 11) (array 8 [4] 11) 0 [] _ eq_refl)
    as (_ & F & N & K & H1 & _ & _ & H4 & _ & _ & _ & _ & _ & Hsmall).
  injection H1 as <- <-. injection H4 as <-.
  apply Hsmall. cbn. lia.
Defined.

Lemma py_compute_centroid_shifts_squared_returned_shapes_witness :
  let a1 := array 1 [2; 3] 12 in
  let a2 := array 2 [2; 3] 12 in
  let a3 := array 3 [3] 12 in
  exists r,
    py_compute_centroid_shifts_squared_kernel numpy_api same_queue
      a1 a2 a3 0 [] = returned r /\
    exists F K,
      shape a1 = [F; K] /\ shape a2 = [F; K] /\ shape a3 = [K] /\
      scalar_args (snd r) = [F; K; 128].
Proof.
  cbv zeta. eexists. split; [reflexivity|].
  apply (py_compute_centroid_shifts_squared_returned_shapes
           numpy_api same_queue
           (array 1 [2; 3] 12) (array 2 [2; 3] 12) (array 3 [3] 12) 0 []).
  reflexivity.
Defined.

Lemma py_compute_distances_returned_shapes_witness :
  let a1 := array 1 [2; 4] 11 in
  let a2 := array 2 [2; 3] 11 in
  let a3 := array 3 [3; 4] 11 in
  exists r,
    py_compute_distances numpy_api same_queue a1 a2 a3 64 8 0 []
      = returned r /\
    (exists F N K,
       shape a1 = [F; N] /\ shape a2 = [F; K] /\ shape a3 = [K; N] /\
       scalar_args (snd r) = [N; F; K; 8; 64]) /\
    forall wg h,
      is_error (py_compute_distances numpy_api same_queue
                  a1 a2 a3 wg h 0 []) = false.
Proof.
  cbv zeta. eexists. split; [reflexivity|].
  apply (py_compute_distances_returned_shapes numpy_api same_queue
           (array 1 [2; 4] 11) (array 2 [2; 3] 11) (array 3 [3; 4] 11)
           64 8 0 []).
  reflexivity.
Defined.

Lemma py_assignment_returned_shapes_witness :
  let a1 := array 1 [2; 4] 12 in
  let a2 := array 2 [2; 3] 12 in
  let a3 := array 3 [3] 12 in
  let a4 := array 4 [4] 7 in
  exists r,
    py_assignment numpy_api same_queue a1 a2 a3 a4 8 64 0 [] = returned r /\
    exists F N K,
      shape a1 = [F; N] /\ shape a2 = [F; K] /\ shape a3 = [K] /\
      shape a4 = [N] /\
      scalar_args (snd r) = [N; F; K; 8; 64].
Proof.
  cbv zeta. eexists. split; [reflexivity|].
  apply (py_assignment_returned_shapes numpy_api same_queue
           (array 1 [2; 4] 12) (array 2 [2; 3] 12) (array 3 [3] 12)
           (array 4 [4] 7) 8 64 0 []).
  reflexivity.
Defined.

Lemma py_select_samples_far_from_centroid_returned_bounds_witness :
  let a1 := array 1 [5] 11 in
  let a2 := array 2 [1] 11 in
  let a3 := array 3 [4] 5 in
  let a4 := array 4 [1] 5 in
  let a5 := array 5 [1] 5 in
  (0 <= 3 < 2 ^ 64 /\ 0 <= get_shape a1 0 < 2 ^ 63) /\
  exists r,
    py_select_samples_far_from_centroid numpy_api same_queue
      3 a1 a2 a3 a4 a5 0 [] = returned r /\
    1 <= 3 <= get_shape a1 0 /\
    3 <= get_shape a3 0 /\
    shape a1 = [get_shape a1 0] /\
    shape a3 = [get_shape a3 0] /\
    scalar_args (snd r) = [3; get_shape a1 0; 64].
Proof.
  cbv zeta. split; [cbn; lia|].
  eexists. split; [reflexivity|].
  apply (py_select_samples_far_from_centroid_returned_bounds
           numpy_api same_queue 3
           (array 1 [5] 11) (array 2 [1] 11) (array 3 [4] 5)
           (array 4 [1] 5) (array 5 [1] 5) 0 []);
    [cbn; lia | cbn; lia | reflexivity].
Defined.
